(** * Distributed speech-translation evaluation harness
      ([eval_audio/evaluate_st.py])

    A shallow embedding of the evaluation script: the dataset wrapper
    [AudioDatasetModified], the sharding sampler [InferenceSampler], the
    per-rank inference loop, the gather of the per-rank lists and the
    rank-0 coordinator that writes the results file and scores each
    group of results.

    Python integers are unbounded and are modelled by [Z]; Python's [//]
    and [%] round towards minus infinity, as [Z.div] and [Z.modulo] do.
    Exceptions are modelled by the [result] type below.  The external
    collaborators (the HuggingFace dataset, the processor, the model's
    generation, sacrebleu) are Section variables. *)

From Stdlib Require Import ZArith List String Ascii Bool Lia Permutation.
Import ListNotations.

Open Scope string_scope.
Open Scope list_scope.
Open Scope Z_scope.

(* ===================================================================== *)
(** ** Python exceptions and the error monad *)
(* ===================================================================== *)

Inductive exn : Type :=
| AssertionError
| ZeroDivisionError
| IndexError
| ValueError
| NotImplementedError.

Inductive result (A : Type) : Type :=
| Return (a : A)
| Raise (e : exn).

Arguments Return {A} a.
Arguments Raise {A} e.

Definition bind {A B : Type} (m : result A) (k : A -> result B) : result B :=
  match m with
  | Return a => k a
  | Raise e => Raise e
  end.

Notation "x <- m ;; k" := (bind m (fun x => k))
  (at level 61, m at next level, right associativity).

Definition raises {A : Type} (m : result A) : bool :=
  match m with
  | Return _ => false
  | Raise _ => true
  end.

(* ===================================================================== *)
(** ** The Python built-ins the script uses *)
(* ===================================================================== *)

Module Py.

(** [a // b] *)
Definition floordiv (a b : Z) : result Z :=
  if b =? 0 then Raise ZeroDivisionError else Return (a / b).

(** [a % b] *)
Definition mod_ (a b : Z) : result Z :=
  if b =? 0 then Raise ZeroDivisionError else Return (a mod b).

(** [int(b)] for a boolean [b] *)
Definition int_of_bool (b : bool) : Z := if b then 1 else 0.

(** [list(range(n))]: empty when [n <= 0]. *)
Definition range_list (n : Z) : list Z :=
  map Z.of_nat (seq 0 (Z.to_nat n)).

(** [len(l)] *)
Definition len {A : Type} (l : list A) : Z := Z.of_nat (List.length l).

(** [l[:k]]: a negative [k] counts from the end; the bounds are clipped. *)
Definition slice_to {A : Type} (l : list A) (k : Z) : list A :=
  if k <? 0 then firstn (Z.to_nat (len l + k)) l
  else firstn (Z.to_nat k) l.

(** [sum(l)] *)
Definition sum (l : list Z) : Z := fold_left Z.add l 0.

(** [l[i]]: a negative [i] counts from the end; out of range raises. *)
Definition getitem {A : Type} (l : list A) (i : Z) : result A :=
  let j := if i <? 0 then len l + i else i in
  if j <? 0 then Raise IndexError
  else match nth_error l (Z.to_nat j) with
       | Some a => Return a
       | None => Raise IndexError
       end.

(** [range(start, stop)] as an object. *)
Record range : Type := mk_range { start : Z; stop : Z }.

(** [i in range(start, stop)] *)
Definition range_mem (i : Z) (rg : range) : Prop :=
  start rg <= i < stop rg.

(** [len(range(start, stop))] *)
Definition range_len (rg : range) : Z := Z.max 0 (stop rg - start rg).

(** [list(range(start, stop))] *)
Definition range_elems (rg : range) : list Z :=
  map (fun k => start rg + Z.of_nat k) (seq 0 (Z.to_nat (stop rg - start rg))).

(** [s.split(sep)] for a one-character separator: the result is never
    empty, and has one more segment than [s] has separators. *)
Fixpoint split (sep : ascii) (s : string) : list string :=
  match s with
  | EmptyString => [EmptyString]
  | String c rest =>
      if Ascii.eqb c sep then EmptyString :: split sep rest
      else match split sep rest with
           | [] => [String c EmptyString]
           | seg :: segs => String c seg :: segs
           end
  end.

(** [s.count(c)] for a one-character [c]. *)
Fixpoint count (c : ascii) (s : string) : nat :=
  match s with
  | EmptyString => 0%nat
  | String c' rest =>
      if Ascii.eqb c' c then S (count c rest) else count c rest
  end.

(** [zip(a, b, c, d)]: stops at the end of the shortest argument. *)
Fixpoint zip4 {A B C D : Type}
    (la : list A) (lb : list B) (lc : list C) (ld : list D)
    : list (A * B * C * D) :=
  match la, lb, lc, ld with
  | a :: la', b :: lb', c :: lc', d :: ld' =>
      (a, b, c, d) :: zip4 la' lb' lc' ld'
  | _, _, _, _ => []
  end.

(** [itertools.chain.from_iterable(ls)] drained into a list. *)
Fixpoint chain_from_iterable {A : Type} (ls : list (list A)) : list A :=
  match ls with
  | [] => []
  | l :: ls' => l ++ chain_from_iterable ls'
  end.

End Py.

(* ===================================================================== *)
(** ** [InferenceSampler] *)
(* ===================================================================== *)

Module InferenceSampler.

Record t : Type := mk
  { _size : Z;
    _rank : Z;
    _world_size : Z;
    _local_indices : Py.range }.

(** [shard_sizes = [shard_size + int(r < left) for r in range(world_size)]] *)
Definition shard_sizes (shard_size left world_size : Z) : list Z :=
  map (fun r => shard_size + Py.int_of_bool (r <? left))
      (Py.range_list world_size).

(** The static method [_get_local_indices(total_size, world_size, rank)]. *)
Definition _get_local_indices (total_size world_size rank : Z)
    : result Py.range :=
  shard_size <- Py.floordiv total_size world_size ;;
  left <- Py.mod_ total_size world_size ;;
  let sizes := shard_sizes shard_size left world_size in
  let begin_ := Py.sum (Py.slice_to sizes rank) in
  let end_ := Z.min (Py.sum (Py.slice_to sizes (rank + 1))) total_size in
  Return (Py.mk_range begin_ end_).

(** [__init__(self, size)]; the rank and the world size, which the
    script reads from [torch.distributed], are explicit arguments. *)
Definition __init__ (size world_size rank : Z) : result t :=
  if size >? 0 then
    local_indices <- _get_local_indices size world_size rank ;;
    Return (mk size rank world_size local_indices)
  else Raise AssertionError.

(** [__iter__]: the indices in ascending order. *)
Definition __iter__ (s : t) : list Z := Py.range_elems (_local_indices s).

(** [__len__] *)
Definition __len__ (s : t) : Z := Py.range_len (_local_indices s).

End InferenceSampler.

(* ===================================================================== *)
(** ** [AudioDatasetModified] *)
(* ===================================================================== *)

(** A row of the HuggingFace dataset [fixie-ai/covost2]:
    [data['audio']['array']], [data['audio']['path']],
    [data['audio']['sampling_rate']] and [data['translation']]. *)
Record Row (Audio : Type) : Type := mk_row
  { row_audio_array : Audio;
    row_audio_path : string;
    row_sampling_rate : Z;
    row_translation : string }.

Arguments mk_row {Audio} _ _ _ _.
Arguments row_audio_array {Audio} _.
Arguments row_audio_path {Audio} _.
Arguments row_sampling_rate {Audio} _.
Arguments row_translation {Audio} _.

(** The dictionary [__getitem__] returns. *)
Record Item (Audio : Type) : Type := mk_item
  { item_audio : Audio;
    item_sampling_rate : Z;
    item_prompt : string;
    item_source : string;
    item_audio_path : string;
    item_gt : string }.

Arguments mk_item {Audio} _ _ _ _ _ _.
Arguments item_audio {Audio} _.
Arguments item_sampling_rate {Audio} _.
Arguments item_prompt {Audio} _.
Arguments item_source {Audio} _.
Arguments item_audio_path {Audio} _.
Arguments item_gt {Audio} _.

Module AudioDatasetModified.
Section Defs.

Variable Audio : Type.

(** [load_dataset(path, name)[split]]: the rows of one split. *)
Variable load_dataset : string -> string -> string -> list (Row Audio).

Record t : Type := mk
  { ds : list (Row Audio);
    prompt : string;
    source : string;
    limit : Z }.

Definition prompt_en_de : string :=
  "<|audio_bos|><|AUDIO|><|audio_eos|> Detect the language and translate the speech into German: <|en|>".

Definition prompt_en_zh : string :=
  "<|audio_bos|><|AUDIO|><|audio_eos|> Detect the language and translate the speech into Mandarin: <|en|>".

(** [__init__(self, dname, split, limit=-1)] *)
Definition __init__ (dname split : string) (limit : Z) : result t :=
  if String.eqb dname "en_de" then
    Return (mk (load_dataset "fixie-ai/covost2" "en_de" split)
               prompt_en_de "covost_en_de_dev" limit)
  else if String.eqb dname "en_zh" then
    Return (mk (load_dataset "fixie-ai/covost2" "en_zh-CN" split)
               prompt_en_zh "covost_en_zh_dev" limit)
  else Raise NotImplementedError.

(** [__len__(self)] *)
Definition __len__ (self : t) : Z :=
  if limit self >? 0 then Z.min (limit self) (Py.len (ds self))
  else Py.len (ds self).

(** [__getitem__(self, idx)] *)
Definition __getitem__ (self : t) (idx : Z) : result (Item Audio) :=
  data <- Py.getitem (ds self) idx ;;
  Return (mk_item (row_audio_array data) (row_sampling_rate data)
                  (prompt self) (source self)
                  (row_audio_path data) (row_translation data)).

End Defs.

Arguments mk {Audio} _ _ _ _.
Arguments ds {Audio} _.
Arguments prompt {Audio} _.
Arguments source {Audio} _.
Arguments limit {Audio} _.
Arguments __init__ {Audio} _ _ _ _.
Arguments __len__ {Audio} _.
Arguments __getitem__ {Audio} _ _.

End AudioDatasetModified.

(* ===================================================================== *)
(** ** The data loader, the inference loop, the gather and the scoring *)
(* ===================================================================== *)

Fixpoint mapM {A B : Type} (f : A -> result B) (l : list A) : result (list B) :=
  match l with
  | [] => Return []
  | a :: l' => b <- f a ;; bs <- mapM f l' ;; Return (b :: bs)
  end.

(** One batch as the data loader yields it:
    [(inputs, audio_path, source, gt)]. *)
Record Batch (Inputs : Type) : Type := mk_batch
  { batch_inputs : Inputs;
    batch_audio_path : list string;
    batch_source : list string;
    batch_gt : list string }.

Arguments mk_batch {Inputs} _ _ _ _.
Arguments batch_inputs {Inputs} _.
Arguments batch_audio_path {Inputs} _.
Arguments batch_source {Inputs} _.
Arguments batch_gt {Inputs} _.

(** The four lists a rank accumulates: [gts], [sources], [rets] and
    [audio_paths]. *)
Record Acc : Type := mk_acc
  { gts : list string;
    sources : list string;
    rets : list string;
    audio_paths : list string }.

(** One entry of [results]. *)
Record ResultRec : Type := mk_result
  { r_gt : string;
    r_response : string;
    r_source : string;
    r_audio_path : string }.

(** [torch.utils.data.BatchSampler] with [drop_last=False]: consecutive
    indices are collected until [batch_size] of them are there; what is left
    at the end is a last, shorter batch. *)
Fixpoint batch_sampler (batch_size : Z) (batch : list Z) (indices : list Z)
    : list (list Z) :=
  match indices with
  | [] => if 0 <? Py.len batch then [batch] else []
  | idx :: rest =>
      let batch' := batch ++ [idx] in
      if Py.len batch' =? batch_size
      then batch' :: batch_sampler batch_size [] rest
      else batch_sampler batch_size batch' rest
  end.

(** [results_dict.setdefault(source, []).append(item)] on a dictionary in
    insertion order. *)
Fixpoint setdefault_append (d : list (string * list ResultRec))
    (source : string) (item : ResultRec) : list (string * list ResultRec) :=
  match d with
  | [] => [(source, [item])]
  | (k, v) :: d' =>
      if String.eqb k source then (k, v ++ [item]) :: d'
      else (k, v) :: setdefault_append d' source item
  end.

(** Lines 231 to 234: the grouping of [results] by source. *)
Definition group_by_source (results : list ResultRec)
    : list (string * list ResultRec) :=
  fold_left (fun d item => setdefault_append d (r_source item) item) results [].

(** Lines 236 to 242: the [tokenize] argument for a source. *)
Definition tokenize_of (source : string) : result string :=
  text_lan <- Py.getitem (Py.split "_"%char source) (-2) ;;
  if String.eqb text_lan "ja" then Return "ja-mecab"
  else if String.eqb text_lan "zh" then Return "zh"
  else Return "13a".

(** Lines 243 to 249: the references and the hypotheses of one group. *)
Definition refs_hyps (results_list : list ResultRec)
    : list string * list string :=
  fold_left (fun '(refs, hyps) result =>
               (refs ++ [r_gt result], hyps ++ [r_response result]))
            results_list ([], []).

(** What rank 0 leaves behind in lines 217 to 251: the files written by
    [json.dump] and the lines printed there. *)
Inductive line (Score : Type) : Type :=
| Evaluating (dataset : string)
| GroupLine (source : string) (cnt : Z) (bleu : Score).

Arguments Evaluating {Score} dataset.
Arguments GroupLine {Score} source cnt bleu.

Record Output (Score : Type) : Type := mk_output
  { files : list (string * list ResultRec);
    stdout : list (line Score) }.

Arguments mk_output {Score} _ _.
Arguments files {Score} _.
Arguments stdout {Score} _.

Section Main.

Variable Audio : Type.
Variable Inputs : Type.
Variable Score : Type.

(** [load_dataset(path, name)[split]] *)
Variable load_dataset : string -> string -> string -> list (Row Audio).

(** [processor(text=..., audios=..., ...)] *)
Variable processor : list string -> list Audio -> Inputs.

(** Lines 188 to 192: [model.generate], the removal of the prompt tokens
    and [processor.batch_decode]; one decoded string per generated row. *)
Variable infer : Inputs -> list string.

(** [sacrebleu.corpus_bleu(hyps, [refs], tokenize=...).score] *)
Variable corpus_bleu : list string -> list (list string) -> string -> Score.

(** [collate_fn_modified(inputs, processor)] *)
Definition collate_fn_modified (inputs : list (Item Audio)) : Batch Inputs :=
  let input_texts := map item_prompt inputs in
  let source := map item_source inputs in
  let gt := map item_gt inputs in
  let audio_path := map item_audio_path inputs in
  let input_audios := map item_audio inputs in
  mk_batch (processor input_texts input_audios) audio_path source gt.

(** [torch.utils.data.DataLoader(dataset, sampler, batch_size,
    drop_last=False, collate_fn)] iterated to the end: a batch size that
    is not positive is refused; each batch of indices is fetched with
    [dataset[idx]] and collated. *)
Definition data_loader (dataset : AudioDatasetModified.t Audio)
    (sampler : InferenceSampler.t) (batch_size : Z)
    : result (list (Batch Inputs)) :=
  if batch_size <=? 0 then Raise ValueError
  else
    mapM (fun idxs =>
            items <- mapM (AudioDatasetModified.__getitem__ dataset) idxs ;;
            Return (collate_fn_modified items))
         (batch_sampler batch_size [] (InferenceSampler.__iter__ sampler)).

(** Lines 187 to 196: one turn of the inference loop. *)
Definition loop_body (acc : Acc) (b : Batch Inputs) : Acc :=
  let output := infer (batch_inputs b) in
  mk_acc (gts acc ++ batch_gt b)
         (sources acc ++ batch_source b)
         (rets acc ++ output)
         (audio_paths acc ++ batch_audio_path b).

(** Lines 183 to 196. *)
Definition worker_loop (batches : list (Batch Inputs)) : Acc :=
  fold_left loop_body batches (mk_acc [] [] [] []).

(** Lines 171 to 196 on the rank [rank] of [world_size]. *)
Definition worker (dataset split : string) (batch_size limit : Z)
    (world_size rank : Z) : result Acc :=
  ds <- AudioDatasetModified.__init__ load_dataset dataset split limit ;;
  sampler <- InferenceSampler.__init__
               (AudioDatasetModified.__len__ ds) world_size rank ;;
  batches <- data_loader ds sampler batch_size ;;
  Return (worker_loop batches).

(** Lines 200 to 215: [all_gather_object] puts the object of rank [r] at
    position [r] of the output list; [world] is the list of the ranks'
    accumulators in rank order.  The gathered lists are then chained. *)
Definition merged_gts (world : list Acc) : list string :=
  Py.chain_from_iterable (map gts world).
Definition merged_sources (world : list Acc) : list string :=
  Py.chain_from_iterable (map sources world).
Definition merged_responses (world : list Acc) : list string :=
  Py.chain_from_iterable (map rets world).
Definition merged_audio_paths (world : list Acc) : list string :=
  Py.chain_from_iterable (map audio_paths world).

(** Lines 220 to 227. *)
Definition build_results (world : list Acc) : list ResultRec :=
  map (fun '(gt, response, source, audio_path) =>
         mk_result gt response source audio_path)
      (Py.zip4 (merged_gts world) (merged_responses world)
               (merged_sources world) (merged_audio_paths world)).

(** Lines 236 to 251: the body of the loop over [results_dict]. *)
Definition score_group (source : string) (results_list : list ResultRec)
    : result (line Score) :=
  text_lan <- tokenize_of source ;;
  let '(refs, hyps) := refs_hyps results_list in
  let bleu := corpus_bleu hyps [refs] text_lan in
  Return (GroupLine source (Py.len refs) bleu).

(** Lines 235 to 251: the groups are scored in the order of the
    dictionary; an exception ends the loop, and what was printed before
    it stays printed. *)
Fixpoint score_groups (results_dict : list (string * list ResultRec))
    (out : Output Score) : Output Score * result unit :=
  match results_dict with
  | [] => (out, Return tt)
  | (source, results_list) :: rest =>
      match score_group source results_list with
      | Raise e => (out, Raise e)
      | Return l =>
          score_groups rest (mk_output (files out) (stdout out ++ [l]))
      end
  end.

(** The line the loop prints for a group whose tokenizer is [text_lan]:
    the source, the number of its items and the score of its hypotheses
    against its references. *)
Definition group_line (text_lan source : string)
    (results_list : list ResultRec) : line Score :=
  GroupLine source (Py.len results_list)
    (corpus_bleu (map r_response results_list) [map r_gt results_list]
                 text_lan).

(** [l] is the line of the dictionary entry [(source, results_list)]. *)
Definition line_of_entry (entry : string * list ResultRec)
    (l : line Score) : Prop :=
  exists text_lan,
    tokenize_of (fst entry) = Return text_lan /\
    l = group_line text_lan (fst entry) (snd entry).

(** What lines 231 to 251 print for a results list. *)
Definition report (results : list ResultRec) : list (line Score) :=
  stdout (fst (score_groups (group_by_source results) (mk_output [] []))).

(** Lines 217 to 251 on rank 0. *)
Definition coordinator (dataset time_prefix : string) (world : list Acc)
    (out : Output Score) : Output Score * result unit :=
  let out1 := mk_output (files out) (stdout out ++ [Evaluating dataset]) in
  let results := build_results world in
  let results_file :=
    String.append dataset
      (String.append "_" (String.append time_prefix ".json")) in
  let out2 := mk_output (files out1 ++ [(results_file, results)])
                        (stdout out1) in
  score_groups (group_by_source results) out2.

(** The whole run on [world_size] ranks, seen from rank 0: every rank
    runs lines 171 to 196; when one of them raises, the run ends there
    and nothing is written.  An initialised process group has at least one
    rank, so the statements about [run] take [0 < world_size]. *)
Definition run (dataset split : string) (batch_size limit : Z)
    (world_size : Z) (time_prefix : string)
    : Output Score * result unit :=
  match mapM (worker dataset split batch_size limit world_size)
             (Py.range_list world_size) with
  | Raise e => (mk_output [] [], Raise e)
  | Return world => coordinator dataset time_prefix world (mk_output [] [])
  end.

End Main.

Arguments collate_fn_modified {Audio Inputs} processor inputs.
Arguments data_loader {Audio Inputs} processor dataset sampler batch_size.
Arguments loop_body {Inputs} infer acc b.
Arguments worker_loop {Inputs} infer batches.
Arguments worker {Audio Inputs} load_dataset processor infer
  dataset split batch_size limit world_size rank.
Arguments score_group {Score} corpus_bleu source results_list.
Arguments score_groups {Score} corpus_bleu results_dict out.
Arguments group_line {Score} corpus_bleu text_lan source results_list.
Arguments line_of_entry {Score} corpus_bleu entry l.
Arguments report {Score} corpus_bleu results.
Arguments coordinator {Score} corpus_bleu dataset time_prefix world out.
Arguments run {Audio Inputs Score} load_dataset processor infer corpus_bleu
  dataset split batch_size limit world_size time_prefix.

(* ===================================================================== *)
(** ** [read_audio] and [collate_fn] *)
(* ===================================================================== *)

(** [s.startswith(p)] *)
Definition startswith (p s : string) : bool := String.prefix p s.

(** The dictionary [AudioDataset.__getitem__] returns: the audio is a path
    or a URL. *)
Record FileItem : Type := mk_file_item
  { file_audio : string;
    file_prompt : string;
    file_source : string;
    file_gt : string }.

Section ReadAudio.

Variable Bytes : Type.
Variable Audio : Type.
Variable Inputs : Type.

(** [requests.get(url).content] *)
Variable requests_get : string -> result Bytes.

(** [open(path, "rb").read()] *)
Variable open_read : string -> result Bytes.

(** [ffmpeg_read(bytes, sampling_rate=...)] *)
Variable ffmpeg_read : Bytes -> Z -> result Audio.

(** [processor(text=..., audios=..., ...)] and
    [processor.feature_extractor.sampling_rate] *)
Variable processor : list string -> list Audio -> Inputs.
Variable sampling_rate : Z.

(** [read_audio(audio_path)] *)
Definition read_audio (audio_path : string) : result Bytes :=
  if startswith "http://" audio_path || startswith "https://" audio_path
  then requests_get audio_path
  else open_read audio_path.

(** [collate_fn(inputs, processor)]: the audios are read and decoded one
    after the other, in the order of the batch. *)
Definition collate_fn (inputs : list FileItem) : result (Batch Inputs) :=
  let input_texts := map file_prompt inputs in
  let source := map file_source inputs in
  let gt := map file_gt inputs in
  let audio_path := map file_audio inputs in
  input_audios <-
    mapM (fun item => bytes <- read_audio (file_audio item) ;;
                      ffmpeg_read bytes sampling_rate) inputs ;;
  Return (mk_batch (processor input_texts input_audios) audio_path source gt).

End ReadAudio.

Arguments read_audio {Bytes} requests_get open_read audio_path.
Arguments collate_fn {Bytes Audio Inputs} requests_get open_read ffmpeg_read
  processor sampling_rate inputs.

(* ===================================================================== *)
(** ** The plan in the specification's words *)
(* ===================================================================== *)

(** The specification's algorithm: [base = N div W], [remainder = N mod W];
    the first [remainder] ranks receive [base + 1] items, the rest [base]. *)
Definition plan_size (N W r : Z) : Z :=
  N / W + (if r <? N mod W then 1 else 0).

(** The specification's begin of a rank: the sum of the sizes of the ranks
    below it. *)
Definition plan_begin (N W r : Z) : Z :=
  Py.sum (map (plan_size N W) (Py.range_list r)).

(** The specification's policy table: the code [ja] goes to the tokenizer
    for Japanese (sacrebleu's [ja-mecab]), [zh] to the one for Chinese
    ([zh]), every other code to the generic default ([13a]). *)
Definition policy_table (code : string) : string :=
  if String.eqb code "ja" then "ja-mecab"
  else if String.eqb code "zh" then "zh"
  else "13a".

(** The items of [results] that carry the tag [source]. *)
Definition items_of (source : string) (results : list ResultRec)
    : list ResultRec :=
  filter (fun item => String.eqb (r_source item) source) results.

(** The rows at the indices [idxs], in the order of [idxs]. *)
Definition rows_at {Audio : Type} (rows : list (Row Audio)) (idxs : list Z)
    : list (Row Audio) :=
  flat_map (fun i => match nth_error rows (Z.to_nat i) with
                     | Some row => [row]
                     | None => []
                     end) idxs.

(** The item [__getitem__] makes of a row. *)
Definition item_of_row {Audio : Type} (self : AudioDatasetModified.t Audio)
    (row : Row Audio) : Item Audio :=
  mk_item (row_audio_array row) (row_sampling_rate row)
          (AudioDatasetModified.prompt self)
          (AudioDatasetModified.source self)
          (row_audio_path row) (row_translation row).

(** The contract of the generation: one decoded string per row of the
    batch the processor was given. *)
Definition keeps_length {Audio Inputs : Type}
    (processor : list string -> list Audio -> Inputs)
    (infer : Inputs -> list string) : Prop :=
  forall texts audios,
    List.length texts = List.length audios ->
    List.length (infer (processor texts audios)) = List.length audios.

(* ===================================================================== *)
(** ** A small world to run the script on *)
(* ===================================================================== *)

Module Sample.

(** Three rows; the audio is stood for by its name. *)
Definition rows : list (Row string) :=
  [mk_row "a0" "a0.wav" 16000 "Hallo";
   mk_row "a1" "a1.wav" 16000 "Welt";
   mk_row "a2" "a2.wav" 16000 "Danke"].

Definition load_dataset (path name split : string) : list (Row string) :=
  rows.

(** The processor keeps the audios of the batch. *)
Definition processor (texts : list string) (audios : list string)
    : list string := audios.

(** A generation that loses the first row of every batch. *)
Definition infer_one_short (audios : list string) : list string :=
  map (fun a => String.append "hyp-" a) (tl audios).

(** A generation that keeps the contract: one string per row. *)
Definition infer_all (audios : list string) : list string :=
  map (fun a => String.append "hyp-" a) audios.

(** In place of the score, the tokenizer the scorer was called with. *)
Definition corpus_bleu (hyps : list string) (refs : list (list string))
    (tokenize : string) : string := tokenize.

(** What two ranks could hold if a tag had no separator. *)
Definition world_plain_tag : list Acc :=
  [mk_acc ["Hallo"] ["covost"] ["hyp-a0"] ["a0.wav"];
   mk_acc ["Welt"] ["covost"] ["hyp-a1"] ["a1.wav"]].

(** Two ranks whose four lists have different lengths. *)
Definition world_unequal : list Acc :=
  [mk_acc ["g0"; "g1"] ["covost_en_de_dev"; "covost_en_de_dev"]
          ["h0"] ["p0"; "p1"];
   mk_acc ["g2"; "g3"] ["covost_en_de_dev"] ["h2"; "h3"] ["p2"; "p3"]].

(** The scenario of the specification: two groups of two items. *)
Definition two_groups : list ResultRec :=
  [mk_result "Hallo" "Hallo" "covost_en_de_dev" "a0.wav";
   mk_result "ni hao" "ni hao" "covost_en_zh_dev" "b0.wav";
   mk_result "Welt" "Erde" "covost_en_de_dev" "a1.wav";
   mk_result "xie xie" "xie xie" "covost_en_zh_dev" "b1.wav"].

End Sample.

(* ===================================================================== *)
(** ** The shard plan *)
(* ===================================================================== *)

Section ShardPlan.

Import InferenceSampler.

Lemma fold_add_shift (l : list Z) (a : Z) :
  fold_left Z.add l a = a + Py.sum l.
Proof.
  unfold Py.sum. revert a.
  induction l as [|x l IH]; intros a; simpl.
  - lia.
  - rewrite (IH (a + x)), (IH x). lia.
Qed.

Lemma sum_app (l1 l2 : list Z) :
  Py.sum (l1 ++ l2) = Py.sum l1 + Py.sum l2.
Proof.
  unfold Py.sum at 1. rewrite fold_left_app.
  rewrite fold_add_shift. reflexivity.
Qed.

Lemma len_shard_sizes (b l w : Z) :
  List.length (shard_sizes b l w) = Z.to_nat w.
Proof.
  unfold shard_sizes, Py.range_list.
  now rewrite !length_map, length_seq.
Qed.

Lemma firstn_seq_le (k n s : nat) :
  (k <= n)%nat -> firstn k (seq s n) = seq s k.
Proof.
  revert n s. induction k as [|k IH]; intros n s Hk.
  - reflexivity.
  - destruct n as [|n]; [lia|]. simpl. f_equal. apply IH. lia.
Qed.

(** The first [k] shard sizes are the sizes of the ranks below [k]. *)
Lemma firstn_shard_sizes (b l w : Z) (k : nat) :
  (k <= Z.to_nat w)%nat ->
  firstn k (shard_sizes b l w) =
  map (fun r => b + Py.int_of_bool (r <? l)) (map Z.of_nat (seq 0 k)).
Proof.
  intros Hk. unfold shard_sizes, Py.range_list.
  rewrite !firstn_map, firstn_seq_le by exact Hk.
  reflexivity.
Qed.

(** The sum of the sizes of the ranks below [k], in closed form. *)
Lemma sum_sizes_below (b l : Z) (k : nat) :
  0 <= l ->
  Py.sum (map (fun r => b + Py.int_of_bool (r <? l))
              (map Z.of_nat (seq 0 k)))
  = Z.of_nat k * b + Z.min (Z.of_nat k) l.
Proof.
  intros Hl. induction k as [|k IH].
  - simpl. unfold Py.sum. simpl. lia.
  - rewrite seq_S, !map_app, sum_app, IH, Nat2Z.inj_succ.
    cbn [map Nat.add]. unfold Py.sum, Py.int_of_bool. cbn [fold_left].
    destruct (Z.ltb_spec (Z.of_nat k) l); lia.
Qed.

Lemma slice_to_shard_sizes (b l w k : Z) :
  0 <= l -> 0 <= k <= w ->
  Py.sum (Py.slice_to (shard_sizes b l w) k) = k * b + Z.min k l.
Proof.
  intros Hl Hk. unfold Py.slice_to.
  destruct (Z.ltb_spec k 0) as [Hneg|_]; [lia|].
  rewrite firstn_shard_sizes by lia.
  rewrite sum_sizes_below by exact Hl.
  now rewrite Z2Nat.id by lia.
Qed.

(** On a rank of the world, the range in closed form. *)
Lemma get_local_indices_closed (N W r : Z) :
  0 < N -> 0 < W -> 0 <= r < W ->
  _get_local_indices N W r =
  Return (Py.mk_range (r * (N / W) + Z.min r (N mod W))
                      ((r + 1) * (N / W) + Z.min (r + 1) (N mod W))).
Proof.
  intros HN HW Hr. unfold _get_local_indices, Py.floordiv, Py.mod_.
  destruct (Z.eqb_spec W 0) as [->|_]; [lia|]. simpl.
  pose proof (Z.mod_pos_bound N W HW) as Hm.
  pose proof (Z.div_mod N W ltac:(lia)) as Hd.
  assert (Hq : 0 <= N / W) by (apply Z.div_pos; lia).
  rewrite !slice_to_shard_sizes by lia.
  f_equal. f_equal. nia.
Qed.

Lemma plan_begin_closed (N W r : Z) :
  0 < W -> 0 <= r ->
  plan_begin N W r = r * (N / W) + Z.min r (N mod W).
Proof.
  intros HW Hr. unfold plan_begin, Py.range_list.
  pose proof (Z.mod_pos_bound N W HW) as Hm.
  rewrite (map_ext (plan_size N W)
             (fun r => N / W + Py.int_of_bool (r <? N mod W)))
    by reflexivity.
  rewrite sum_sizes_below by lia.
  now rewrite Z2Nat.id by lia.
Qed.

(** The closed form of a rank's begin grows with the rank. *)
Lemma begin_mono (q m r r' : Z) :
  0 <= q -> r <= r' -> r * q + Z.min r m <= r' * q + Z.min r' m.
Proof.
  intros Hq Hr.
  assert (r * q <= r' * q) by (apply Z.mul_le_mono_nonneg_r; lia).
  lia.
Qed.

(** Every index below the begin of rank [k] lies in the range of a rank
    below [k]. *)
Lemma covered_below (q m i : Z) (k : nat) :
  0 <= i -> i < Z.of_nat k * q + Z.min (Z.of_nat k) m ->
  exists r, 0 <= r < Z.of_nat k /\
            r * q + Z.min r m <= i < (r + 1) * q + Z.min (r + 1) m.
Proof.
  intros Hi. induction k as [|k IH]; intros Hk.
  - simpl in Hk. lia.
  - rewrite Nat2Z.inj_succ in *.
    destruct (Z_lt_le_dec i (Z.of_nat k * q + Z.min (Z.of_nat k) m))
      as [Hlt|Hge].
    + destruct (IH Hlt) as [r [Hr Hin]]. exists r. split; [lia|exact Hin].
    + exists (Z.of_nat k). split; [lia|].
      replace (Z.of_nat k + 1) with (Z.succ (Z.of_nat k)) by lia. lia.
Qed.

(** The range of a rank lies inside [0, N). *)
Lemma local_indices_in_bounds (N W r : Z) :
  0 < N -> 0 < W -> 0 <= r < W ->
  exists rg, _get_local_indices N W r = Return rg /\
             0 <= Py.start rg /\ Py.stop rg <= N.
Proof.
  intros HN HW Hr.
  pose proof (Z.mod_pos_bound N W HW) as Hm.
  pose proof (Z.div_mod N W ltac:(lia)) as Hd.
  assert (Hq : 0 <= N / W) by (apply Z.div_pos; lia).
  eexists. split; [apply get_local_indices_closed; lia|].
  cbn [Py.start Py.stop].
  pose proof (begin_mono (N / W) (N mod W) 0 r Hq ltac:(lia)).
  pose proof (begin_mono (N / W) (N mod W) (r + 1) W Hq ltac:(lia)).
  lia.
Qed.

End ShardPlan.

(** C1. For every N > 0 and W > 0 the ranges [_get_local_indices] computes
    for the ranks 0 .. W-1 partition [0, N): each rank gets a range inside
    [0, N) whose size is base+1 for the first N mod W ranks and base for
    the rest and whose begin is the sum of the sizes of the lower ranks;
    every index of [0, N) is in the range of exactly one rank; the ranges
    of two different ranks are disjoint; and two ranks' sizes differ by at
    most 1. *)
Theorem shard_plan_partitions (N W : Z) (HN : 0 < N) (HW : 0 < W) :
  (forall r, 0 <= r < W ->
     exists rg,
       InferenceSampler._get_local_indices N W r = Return rg /\
       Py.start rg = plan_begin N W r /\
       Py.range_len rg = plan_size N W r /\
       Py.stop rg - Py.start rg = plan_size N W r /\
       0 <= Py.start rg /\ Py.stop rg <= N) /\
  (forall i, 0 <= i < N ->
     exists r,
       0 <= r < W /\
       (exists rg, InferenceSampler._get_local_indices N W r = Return rg /\
                   Py.range_mem i rg) /\
       (forall r' rg', 0 <= r' < W ->
          InferenceSampler._get_local_indices N W r' = Return rg' ->
          Py.range_mem i rg' -> r' = r)) /\
  (forall r1 r2 rg1 rg2 i, 0 <= r1 < W -> 0 <= r2 < W -> r1 <> r2 ->
     InferenceSampler._get_local_indices N W r1 = Return rg1 ->
     InferenceSampler._get_local_indices N W r2 = Return rg2 ->
     ~ (Py.range_mem i rg1 /\ Py.range_mem i rg2)) /\
  (forall r1 r2 rg1 rg2, 0 <= r1 < W -> 0 <= r2 < W ->
     InferenceSampler._get_local_indices N W r1 = Return rg1 ->
     InferenceSampler._get_local_indices N W r2 = Return rg2 ->
     Py.range_len rg1 - Py.range_len rg2 <= 1).
Proof.
  pose proof (Z.mod_pos_bound N W HW) as Hm.
  pose proof (Z.div_mod N W ltac:(lia)) as Hd.
  assert (Hq : 0 <= N / W) by (apply Z.div_pos; lia).
  set (q := N / W) in *. set (m := N mod W) in *.
  assert (Hovl : forall r1 r2 i, 0 <= r1 -> r1 < r2 ->
            r1 * q + Z.min r1 m <= i < (r1 + 1) * q + Z.min (r1 + 1) m ->
            r2 * q + Z.min r2 m <= i < (r2 + 1) * q + Z.min (r2 + 1) m ->
            False).
  { intros r1 r2 i H0 Hlt H1 H2.
    pose proof (begin_mono q m (r1 + 1) r2 Hq ltac:(lia)). lia. }
  assert (Hsz : forall r, 0 <= r < W ->
            (r + 1) * q + Z.min (r + 1) m - (r * q + Z.min r m)
            = plan_size N W r).
  { intros r Hr. unfold plan_size. fold q m.
    destruct (Z.ltb_spec r m); lia. }
  repeat split.
  - intros r Hr. eexists. split; [apply get_local_indices_closed; lia|].
    fold q m. cbn [Py.start Py.stop]. unfold Py.range_len. cbn [Py.start Py.stop].
    rewrite plan_begin_closed by lia. fold q m.
    pose proof (Hsz r Hr) as Hs.
    assert (0 <= plan_size N W r).
    { unfold plan_size. fold q m. destruct (r <? m); lia. }
    pose proof (begin_mono q m 0 r Hq ltac:(lia)).
    pose proof (begin_mono q m (r + 1) W Hq ltac:(lia)).
    repeat split; try lia.
  - intros i Hi.
    destruct (covered_below q m i (Z.to_nat W)) as [r [Hr Hin]]; [lia| |].
    { rewrite Z2Nat.id by lia. lia. }
    rewrite Z2Nat.id in Hr by lia.
    exists r. split; [exact Hr|]. split.
    + eexists. split; [apply get_local_indices_closed; lia|].
      fold q m. exact Hin.
    + intros r' rg' Hr' Hret Hmem.
      rewrite get_local_indices_closed in Hret by lia.
      injection Hret as <-. unfold Py.range_mem in Hmem.
      cbn [Py.start Py.stop] in Hmem. fold q m in Hmem.
      destruct (Z.lt_trichotomy r' r) as [Hlt|[Heq|Hgt]]; [|exact Heq|].
      * exfalso. apply (Hovl r' r i); lia.
      * exfalso. apply (Hovl r r' i); lia.
  - intros r1 r2 rg1 rg2 i Hr1 Hr2 Hne H1 H2 [M1 M2].
    rewrite get_local_indices_closed in H1, H2 by lia.
    injection H1 as <-. injection H2 as <-.
    unfold Py.range_mem in M1, M2. cbn [Py.start Py.stop] in M1, M2.
    fold q m in M1, M2.
    destruct (Z.lt_trichotomy r1 r2) as [Hlt|[Heq|Hgt]]; [|lia|].
    + apply (Hovl r1 r2 i); lia.
    + apply (Hovl r2 r1 i); lia.
  - intros r1 r2 rg1 rg2 Hr1 Hr2 H1 H2.
    rewrite get_local_indices_closed in H1, H2 by lia.
    injection H1 as <-. injection H2 as <-.
    unfold Py.range_len. cbn [Py.start Py.stop]. fold q m.
    pose proof (Hsz r1 Hr1) as S1. pose proof (Hsz r2 Hr2) as S2.
    unfold plan_size in S1, S2. fold q m in S1, S2.
    destruct (r1 <? m), (r2 <? m); lia.
Qed.

Lemma shard_plan_partitions_witness :
  exists rg,
    InferenceSampler._get_local_indices 10 3 1 = Return rg /\
    Py.start rg = plan_begin 10 3 1 /\
    Py.range_len rg = plan_size 10 3 1 /\
    Py.stop rg - Py.start rg = plan_size 10 3 1 /\
    0 <= Py.start rg /\ Py.stop rg <= 10.
Proof.
  destruct (shard_plan_partitions 10 3 ltac:(lia) ltac:(lia)) as [H _].
  apply (H 1). lia.
Defined.

(** C8. The two scenarios of the shard plan: N = 10 on W = 3 ranks gives
    the ranges [0,4), [4,7), [7,10), of sizes 4, 3, 3; N = 5 on W = 5 ranks
    gives [0,1), [1,2), [2,3), [3,4), [4,5), of size 1 each. *)
Theorem shard_plan_scenarios :
  map (InferenceSampler._get_local_indices 10 3) [0; 1; 2]
  = [Return (Py.mk_range 0 4); Return (Py.mk_range 4 7);
     Return (Py.mk_range 7 10)] /\
  map (fun r => bind (InferenceSampler._get_local_indices 10 3 r)
                     (fun rg => Return (Py.range_len rg))) [0; 1; 2]
  = [Return 4; Return 3; Return 3] /\
  map (InferenceSampler._get_local_indices 5 5) (Py.range_list 5)
  = [Return (Py.mk_range 0 1); Return (Py.mk_range 1 2);
     Return (Py.mk_range 2 3); Return (Py.mk_range 3 4);
     Return (Py.mk_range 4 5)] /\
  map (fun r => bind (InferenceSampler._get_local_indices 5 5 r)
                     (fun rg => Return (Py.range_elems rg))) (Py.range_list 5)
  = [Return [0]; Return [1]; Return [2]; Return [3]; Return [4]].
Proof.
  repeat split; vm_compute; reflexivity.
Qed.

(* ===================================================================== *)
(** ** The length of the dataset *)
(* ===================================================================== *)

Lemma range_elems_In (rg : Py.range) (i : Z) :
  In i (Py.range_elems rg) <-> Py.range_mem i rg.
Proof.
  unfold Py.range_elems, Py.range_mem. rewrite in_map_iff. split.
  - intros [k [<- Hk]]. apply in_seq in Hk. lia.
  - intros Hi. exists (Z.to_nat (i - Py.start rg)). split; [lia|].
    apply in_seq. lia.
Qed.

(** C9. The length of an [AudioDatasetModified] over S rows is
    min(limit, S) when the limit is positive and S otherwise, and this
    length is the size the sampler shards: a sampler built as in the script
    has this size and yields only indices of [0, length). *)
Theorem dataset_len_truncated (Audio : Type)
    (self : AudioDatasetModified.t Audio) :
  (0 < AudioDatasetModified.limit self ->
     AudioDatasetModified.__len__ self
     = Z.min (AudioDatasetModified.limit self)
             (Py.len (AudioDatasetModified.ds self))) /\
  (AudioDatasetModified.limit self <= 0 ->
     AudioDatasetModified.__len__ self
     = Py.len (AudioDatasetModified.ds self)) /\
  (forall W r s, 0 < W -> 0 <= r < W ->
     InferenceSampler.__init__ (AudioDatasetModified.__len__ self) W r
     = Return s ->
     InferenceSampler._size s = AudioDatasetModified.__len__ self /\
     forall i, In i (InferenceSampler.__iter__ s) ->
               0 <= i < AudioDatasetModified.__len__ self).
Proof.
  assert (Hsampler : forall W r s, 0 < W -> 0 <= r < W ->
            InferenceSampler.__init__ (AudioDatasetModified.__len__ self) W r
            = Return s ->
            InferenceSampler._size s = AudioDatasetModified.__len__ self /\
            forall i, In i (InferenceSampler.__iter__ s) ->
                      0 <= i < AudioDatasetModified.__len__ self).
  { intros W r s HW Hr. unfold InferenceSampler.__init__.
    set (N := AudioDatasetModified.__len__ self).
    destruct (Z.gtb_spec N 0) as [HN|]; [|discriminate].
    destruct (local_indices_in_bounds N W r HN HW Hr) as [rg [Hrg Hb]].
    rewrite Hrg. cbn [bind]. intros [= <-].
    split; [reflexivity|]. intros i Hin.
    unfold InferenceSampler.__iter__ in Hin. cbn in Hin.
    apply range_elems_In in Hin. unfold Py.range_mem in Hin. lia. }
  split; [|split; [|exact Hsampler]]; unfold AudioDatasetModified.__len__.
  - intros Hl.
    destruct (Z.gtb_spec (AudioDatasetModified.limit self) 0);
      [reflexivity|lia].
  - intros Hl.
    destruct (Z.gtb_spec (AudioDatasetModified.limit self) 0);
      [lia|reflexivity].
Qed.

Lemma dataset_len_truncated_witness :
  AudioDatasetModified.__len__
    (AudioDatasetModified.mk Sample.rows AudioDatasetModified.prompt_en_de
       "covost_en_de_dev" 2)
  = Z.min 2 3 /\
  AudioDatasetModified.__len__
    (AudioDatasetModified.mk Sample.rows AudioDatasetModified.prompt_en_de
       "covost_en_de_dev" (-1))
  = 3 /\
  forall i, In i (InferenceSampler.__iter__
                    (InferenceSampler.mk 2 1 2 (Py.mk_range 1 2))) ->
            0 <= i < 2.
Proof.
  split; [|split].
  - apply (dataset_len_truncated string
             (AudioDatasetModified.mk Sample.rows
                AudioDatasetModified.prompt_en_de "covost_en_de_dev" 2)).
    reflexivity.
  - apply (dataset_len_truncated string
             (AudioDatasetModified.mk Sample.rows
                AudioDatasetModified.prompt_en_de "covost_en_de_dev" (-1))).
    cbn. lia.
  - apply (proj2 (proj2 (dataset_len_truncated string
             (AudioDatasetModified.mk Sample.rows
                AudioDatasetModified.prompt_en_de "covost_en_de_dev" 2)))
             2 1 (InferenceSampler.mk 2 1 2 (Py.mk_range 1 2)));
      [lia|lia|reflexivity].
Defined.

(* ===================================================================== *)
(** ** The gather and the merge *)
(* ===================================================================== *)

Section Chain.

Context {A : Type}.

Lemma chain_is_concat (ls : list (list A)) :
  Py.chain_from_iterable ls = List.concat ls.
Proof.
  induction ls as [|l ls IH]; simpl; [reflexivity|now rewrite IH].
Qed.

Lemma chain_app (l1 l2 : list (list A)) :
  Py.chain_from_iterable (l1 ++ l2)
  = Py.chain_from_iterable l1 ++ Py.chain_from_iterable l2.
Proof.
  induction l1 as [|l l1 IH]; simpl; [reflexivity|].
  now rewrite IH, app_assoc.
Qed.

Lemma chain_length (ls : list (list A)) :
  List.length (Py.chain_from_iterable ls)
  = fold_right (fun l n => (List.length l + n)%nat) 0%nat ls.
Proof.
  induction ls as [|l ls IH]; simpl; [reflexivity|].
  now rewrite length_app, IH.
Qed.

(** The element [j] of the list of rank [r] is found, in the chained
    list, after all the elements of the ranks below [r]. *)
Lemma chain_nth_error (ls : list (list A)) (r j : nat) (l : list A) (x : A) :
  nth_error ls r = Some l ->
  nth_error l j = Some x ->
  nth_error (Py.chain_from_iterable ls)
            (List.length (Py.chain_from_iterable (firstn r ls)) + j)
  = Some x.
Proof.
  revert r. induction ls as [|l0 ls IH]; intros r Hr Hj.
  - destruct r; discriminate.
  - destruct r as [|r]; simpl in *.
    + injection Hr as ->.
      rewrite nth_error_app1; [exact Hj|].
      apply nth_error_Some. congruence.
    + rewrite length_app, <- Nat.add_assoc.
      rewrite nth_error_app2 by lia.
      replace (List.length l0 + _ - List.length l0)%nat
        with (List.length (Py.chain_from_iterable (firstn r ls)) + j)%nat
        by lia.
      now apply IH.
Qed.

End Chain.

(** C6. Each of the four merged lists is the concatenation of the ranks'
    lists in ascending rank order: the element [j] of the list of rank [r]
    stands at position [j] after all the elements of the ranks below [r],
    so the order inside a rank is kept, and nothing is dropped, repeated
    or reordered. *)
Theorem merged_in_rank_order (world : list Acc) :
  merged_gts world = List.concat (map gts world) /\
  merged_sources world = List.concat (map sources world) /\
  merged_responses world = List.concat (map rets world) /\
  merged_audio_paths world = List.concat (map audio_paths world) /\
  (forall (r j : nat) (acc : Acc),
     nth_error world r = Some acc ->
     let below f := List.length (List.concat (map f (firstn r world))) in
     (forall x, nth_error (gts acc) j = Some x ->
        nth_error (merged_gts world) (below gts + j) = Some x) /\
     (forall x, nth_error (sources acc) j = Some x ->
        nth_error (merged_sources world) (below sources + j) = Some x) /\
     (forall x, nth_error (rets acc) j = Some x ->
        nth_error (merged_responses world) (below rets + j) = Some x) /\
     (forall x, nth_error (audio_paths acc) j = Some x ->
        nth_error (merged_audio_paths world) (below audio_paths + j)
        = Some x)).
Proof.
  unfold merged_gts, merged_sources, merged_responses, merged_audio_paths.
  split; [|split; [|split; [|split]]]; try apply chain_is_concat.
  intros r j acc Hacc. cbv zeta.
  repeat split; intros x Hx; rewrite <- chain_is_concat, <- firstn_map;
    (eapply chain_nth_error; [|exact Hx]);
    rewrite nth_error_map, Hacc; reflexivity.
Qed.

Lemma merged_in_rank_order_witness :
  nth_error
    (merged_responses [mk_acc ["g0"; "g1"] ["s"; "s"] ["a"; "b"] ["p0"; "p1"];
                       mk_acc ["g2"] ["s"] ["c"] ["p2"]])
    (2 + 0)
  = Some "c".
Proof.
  pose (world := [mk_acc ["g0"; "g1"] ["s"; "s"] ["a"; "b"] ["p0"; "p1"];
                  mk_acc ["g2"] ["s"] ["c"] ["p2"]]).
  destruct (merged_in_rank_order world) as (_ & _ & _ & _ & H).
  destruct (H 1%nat 0%nat (mk_acc ["g2"] ["s"] ["c"] ["p2"]) eq_refl)
    as (_ & _ & Hr & _).
  exact (Hr "c" eq_refl).
Defined.

(* ===================================================================== *)
(** ** The results list and the results file *)
(* ===================================================================== *)

Lemma zip4_length {A B C D : Type}
    (la : list A) (lb : list B) (lc : list C) (ld : list D) :
  List.length (Py.zip4 la lb lc ld)
  = Nat.min (Nat.min (List.length la) (List.length lb))
            (Nat.min (List.length lc) (List.length ld)).
Proof.
  revert lb lc ld. induction la as [|a la IH]; intros lb lc ld.
  - reflexivity.
  - destruct lb as [|b lb]; [reflexivity|].
    destruct lc as [|c lc]; [simpl; lia|].
    destruct ld as [|d ld]; [simpl; lia|].
    simpl. rewrite IH. reflexivity.
Qed.

Lemma zip4_nth_error {A B C D : Type}
    (la : list A) (lb : list B) (lc : list C) (ld : list D)
    (k : nat) a b c d :
  nth_error (Py.zip4 la lb lc ld) k = Some (a, b, c, d) <->
  nth_error la k = Some a /\ nth_error lb k = Some b /\
  nth_error lc k = Some c /\ nth_error ld k = Some d.
Proof.
  revert lb lc ld k. induction la as [|a0 la IH]; intros lb lc ld k.
  - simpl. destruct k; simpl; split; [discriminate| |discriminate|];
      intros [H _]; discriminate.
  - destruct lb as [|b0 lb]; [|destruct lc as [|c0 lc];
                               [|destruct ld as [|d0 ld]]].
    + simpl. destruct k; simpl; split; try discriminate;
        intros (_ & H & _); discriminate.
    + simpl. destruct k; simpl; split; try discriminate;
        intros (_ & _ & H & _); discriminate.
    + simpl. destruct k; simpl; split; try discriminate;
        intros (_ & _ & _ & H); discriminate.
    + destruct k as [|k]; simpl.
      * split; [intros [= -> -> -> ->]; auto|].
        intros ([= ->] & [= ->] & [= ->] & [= ->]). reflexivity.
      * apply IH.
Qed.

(* ===================================================================== *)
(** ** The grouping by source *)
(* ===================================================================== *)

Section Grouping.

Implicit Types (d : list (string * list ResultRec)) (x : ResultRec)
  (s k : string).

Lemma keys_setdefault_present d s x :
  In s (map fst d) ->
  map fst (setdefault_append d s x) = map fst d.
Proof.
  induction d as [|[k0 v0] d IH]; intros Hin; simpl in *.
  - contradiction.
  - destruct (String.eqb_spec k0 s) as [->|Hne]; simpl; [reflexivity|].
    f_equal. apply IH. destruct Hin; [contradiction|assumption].
Qed.

Lemma keys_setdefault_absent d s x :
  ~ In s (map fst d) ->
  map fst (setdefault_append d s x) = map fst d ++ [s].
Proof.
  induction d as [|[k0 v0] d IH]; intros Hin; simpl in *.
  - reflexivity.
  - destruct (String.eqb_spec k0 s) as [->|Hne]; simpl.
    + exfalso. apply Hin. now left.
    + f_equal. apply IH. intros H. apply Hin. now right.
Qed.

(** Where an entry of the dictionary comes from after an append. *)
Lemma In_setdefault_append d s x k v' :
  NoDup (map fst d) ->
  In (k, v') (setdefault_append d s x) ->
  (k <> s /\ In (k, v') d) \/
  (k = s /\ ((exists v, In (s, v) d /\ v' = v ++ [x]) \/
             (~ In s (map fst d) /\ v' = [x]))).
Proof.
  induction d as [|[k0 v0] d IH]; intros Hnd Hin; simpl in *.
  - destruct Hin as [[= <- <-]|[]]. right. split; [reflexivity|].
    right. split; [tauto|reflexivity].
  - inversion Hnd as [|? ? Hk0 Hnd']; subst.
    destruct (String.eqb_spec k0 s) as [->|Hne]; simpl in Hin.
    + destruct Hin as [[= <- <-]|Hin].
      * right. split; [reflexivity|]. left. exists v0. split; [now left|reflexivity].
      * left. split; [|now right].
        intros ->. apply Hk0. apply (in_map fst _ _ Hin).
    + destruct Hin as [[= <- <-]|Hin].
      * left. split; [exact Hne|now left].
      * destruct (IH Hnd' Hin) as [[Hks Hd]|[-> [[v [Hv ->]]|[Hs ->]]]].
        -- left. split; [exact Hks|now right].
        -- right. split; [reflexivity|]. left. exists v.
           split; [now right|reflexivity].
        -- right. split; [reflexivity|]. right.
           split; [|reflexivity]. intros [H|H]; [congruence|tauto].
Qed.

Lemma group_by_source_snoc (results : list ResultRec) x :
  group_by_source (results ++ [x])
  = setdefault_append (group_by_source results) (r_source x) x.
Proof.
  unfold group_by_source. now rewrite fold_left_app.
Qed.

Lemma items_of_snoc k (results : list ResultRec) x :
  items_of k (results ++ [x])
  = items_of k results ++ (if String.eqb (r_source x) k then [x] else []).
Proof.
  unfold items_of. rewrite filter_app. reflexivity.
Qed.

Lemma items_of_nil_iff k (results : list ResultRec) :
  items_of k results = [] <-> ~ In k (map r_source results).
Proof.
  unfold items_of. induction results as [|y l IH]; simpl.
  - tauto.
  - destruct (String.eqb_spec (r_source y) k) as [->|Hne].
    + split; [discriminate|]. intros H. exfalso. apply H. now left.
    + rewrite IH. tauto.
Qed.

(** The dictionary has one entry per source of [results], in the order
    of first appearance, and the entry of a source holds the items of
    that source, in their order in [results]. *)
Lemma group_by_source_inv (results : list ResultRec) :
  NoDup (map fst (group_by_source results)) /\
  (forall k, In k (map fst (group_by_source results))
             <-> In k (map r_source results)) /\
  (forall k v, In (k, v) (group_by_source results) ->
               v = items_of k results).
Proof.
  induction results as [|x l (Hnd & Hkeys & Hvals)] using rev_ind.
  - repeat split; simpl; try tauto. constructor.
  - rewrite group_by_source_snoc.
    set (d := group_by_source l) in *. set (s := r_source x).
    destruct (in_dec string_dec s (map fst d)) as [Hin|Hout].
    + repeat split.
      * now rewrite keys_setdefault_present.
      * rewrite keys_setdefault_present by exact Hin.
        rewrite map_app, in_app_iff, Hkeys. simpl. tauto.
      * rewrite keys_setdefault_present by exact Hin.
        rewrite map_app, in_app_iff, <- Hkeys. simpl.
        intros [H|[<-|[]]]; [exact H|exact Hin].
      * intros k v Hv. rewrite items_of_snoc. fold s.
        destruct (In_setdefault_append d s x k v Hnd Hv)
          as [[Hks Hd]|[-> [[v0 [Hv0 ->]]|[Hs ->]]]].
        -- destruct (String.eqb_spec s k); [congruence|].
           rewrite app_nil_r. now apply Hvals.
        -- rewrite String.eqb_refl. f_equal. now apply Hvals.
        -- contradiction.
    + repeat split.
      * rewrite keys_setdefault_absent by exact Hout.
        apply NoDup_app; [exact Hnd|repeat constructor; simpl; tauto|].
        intros a Ha [<-|[]]. contradiction.
      * rewrite keys_setdefault_absent by exact Hout.
        rewrite map_app, !in_app_iff, Hkeys. simpl. tauto.
      * rewrite keys_setdefault_absent by exact Hout.
        rewrite map_app, !in_app_iff, Hkeys. simpl. tauto.
      * intros k v Hv. rewrite items_of_snoc. fold s.
        destruct (In_setdefault_append d s x k v Hnd Hv)
          as [[Hks Hd]|[-> [[v0 [Hv0 ->]]|[Hs ->]]]].
        -- destruct (String.eqb_spec s k); [congruence|].
           rewrite app_nil_r. now apply Hvals.
        -- exfalso. apply Hout. apply (in_map fst _ _ Hv0).
        -- rewrite String.eqb_refl.
           replace (items_of s l) with (@nil ResultRec); [reflexivity|].
           symmetry. apply items_of_nil_iff. now rewrite <- Hkeys.
Qed.

Lemma items_of_perm k (l l' : list ResultRec) :
  Permutation l l' ->
  List.length (items_of k l) = List.length (items_of k l').
Proof.
  intros HP. unfold items_of. induction HP; simpl.
  - reflexivity.
  - destruct (String.eqb _ k); simpl; congruence.
  - destruct (String.eqb (r_source x) k), (String.eqb (r_source y) k);
      reflexivity.
  - congruence.
Qed.

End Grouping.

(* ===================================================================== *)
(** ** The tokenizer of a source *)
(* ===================================================================== *)

Lemma split_length (sep : ascii) (s : string) :
  List.length (Py.split sep s) = S (Py.count sep s).
Proof.
  induction s as [|c s IH]; simpl.
  - reflexivity.
  - destruct (Ascii.eqb c sep); simpl.
    + now rewrite IH.
    + destruct (Py.split sep s); simpl in *; [discriminate|exact IH].
Qed.

Lemma getitem_penultimate {A : Type} (pre : list A) (a b : A) :
  Py.getitem (pre ++ [a; b]) (-2) = Return a.
Proof.
  unfold Py.getitem, Py.len. rewrite length_app. cbn [List.length].
  destruct (Z.ltb_spec (-2) 0) as [_|]; [|lia].
  destruct (Z.ltb_spec (Z.of_nat (List.length pre + 2) + -2) 0); [lia|].
  replace (Z.to_nat (Z.of_nat (List.length pre + 2) + -2))
    with (List.length pre + 0)%nat by lia.
  rewrite nth_error_app2 by lia.
  replace (List.length pre + 0 - List.length pre)%nat with 0%nat by lia.
  reflexivity.
Qed.

Lemma getitem_penultimate_short {A : Type} (l : list A) :
  (List.length l < 2)%nat -> Py.getitem l (-2) = Raise IndexError.
Proof.
  intros Hl. unfold Py.getitem, Py.len.
  destruct (Z.ltb_spec (-2) 0) as [_|]; [|lia].
  destruct (Z.ltb_spec (Z.of_nat (List.length l) + -2) 0); [reflexivity|lia].
Qed.

Lemma last_two {A : Type} (l : list A) :
  (2 <= List.length l)%nat -> exists pre a b, l = pre ++ [a; b].
Proof.
  intros Hl.
  destruct (exists_last (l := l)) as [l1 [b ->]];
    [intros ->; simpl in Hl; lia|].
  rewrite length_app in Hl. simpl in Hl.
  destruct (exists_last (l := l1)) as [pre [a ->]];
    [intros ->; simpl in Hl; lia|].
  exists pre, a, b. now rewrite <- app_assoc.
Qed.

(** The tokenizer is the policy of the second-to-last segment. *)
Lemma tokenize_of_segments (source : string) pre code last :
  Py.split "_"%char source = pre ++ [code; last] ->
  tokenize_of source = Return (policy_table code).
Proof.
  intros Hs. unfold tokenize_of, policy_table.
  rewrite Hs, getitem_penultimate. cbn [bind].
  destruct (String.eqb code "ja"); [reflexivity|].
  destruct (String.eqb code "zh"); reflexivity.
Qed.

Lemma tokenize_of_no_separator (source : string) :
  Py.count "_"%char source = 0%nat ->
  tokenize_of source = Raise IndexError.
Proof.
  intros Hc. unfold tokenize_of.
  rewrite getitem_penultimate_short; [reflexivity|].
  rewrite split_length, Hc. lia.
Qed.

(** Whatever the source, the only exception is [IndexError]. *)
Lemma tokenize_of_cases (source : string) :
  (exists code, tokenize_of source = Return (policy_table code)) \/
  tokenize_of source = Raise IndexError.
Proof.
  destruct (Nat.eq_dec (Py.count "_"%char source) 0) as [H0|Hpos].
  - right. now apply tokenize_of_no_separator.
  - left. destruct (last_two (Py.split "_"%char source)) as (pre & a & b & Hs).
    + rewrite split_length. lia.
    + exists a. eapply tokenize_of_segments. exact Hs.
Qed.

(* ===================================================================== *)
(** ** The scoring loop and the coordinator *)
(* ===================================================================== *)

Section Scoring.

Variable Score : Type.
Variable corpus_bleu : list string -> list (list string) -> string -> Score.

Lemma refs_hyps_spec (results_list : list ResultRec) :
  refs_hyps results_list
  = (map r_gt results_list, map r_response results_list).
Proof.
  unfold refs_hyps.
  assert (H : forall l refs hyps,
            fold_left (fun '(refs, hyps) result =>
                         (refs ++ [r_gt result], hyps ++ [r_response result]))
                      l (refs, hyps)
            = (refs ++ map r_gt l, hyps ++ map r_response l)).
  { induction l as [|x l IH]; intros refs hyps; simpl.
    - now rewrite !app_nil_r.
    - rewrite IH, <- !app_assoc. reflexivity. }
  apply (H results_list [] []).
Qed.

Lemma score_group_spec (source : string) (results_list : list ResultRec) :
  score_group corpus_bleu source results_list
  = bind (tokenize_of source)
         (fun text_lan =>
            Return (group_line corpus_bleu text_lan source results_list)).
Proof.
  unfold score_group, group_line. rewrite refs_hyps_spec.
  unfold Py.len. now rewrite length_map.
Qed.

(** The loop leaves the files alone and prints one line per entry, in
    order, up to the first entry whose tokenizer cannot be found. *)
Lemma score_groups_spec (d : list (string * list ResultRec))
    (out : Output Score) :
  exists d1 d2 lines,
    d = d1 ++ d2 /\
    fst (score_groups corpus_bleu d out)
    = mk_output (files out) (stdout out ++ lines) /\
    Forall2 (line_of_entry corpus_bleu) d1 lines /\
    ((d2 = [] /\ snd (score_groups corpus_bleu d out) = Return tt) \/
     (exists entry rest e,
        d2 = entry :: rest /\ tokenize_of (fst entry) = Raise e /\
        snd (score_groups corpus_bleu d out) = Raise e)).
Proof.
  revert out. induction d as [|[source results_list] d IH]; intros out.
  - exists [], [], []. simpl. rewrite app_nil_r.
    repeat split; [destruct out; reflexivity|constructor|now left].
  - cbn [score_groups]. rewrite score_group_spec.
    destruct (tokenize_of source) as [text_lan|e] eqn:Htok; cbn [bind].
    + destruct (IH (mk_output (files out)
                      (stdout out ++
                       [group_line corpus_bleu text_lan source
                                   results_list])))
        as (d1 & d2 & lines & -> & Hfst & Hall & Hres).
      exists ((source, results_list) :: d1), d2,
        (group_line corpus_bleu text_lan source results_list :: lines).
      repeat split.
      * rewrite Hfst. cbn [files stdout]. now rewrite <- app_assoc.
      * constructor; [|exact Hall]. exists text_lan. now split.
      * exact Hres.
    + exists [], ((source, results_list) :: d), []. simpl.
      rewrite app_nil_r. repeat split;
        [destruct out; reflexivity|constructor|].
      right. exists (source, results_list), d, e. now repeat split.
Qed.

Lemma score_groups_files (d : list (string * list ResultRec))
    (out : Output Score) :
  files (fst (score_groups corpus_bleu d out)) = files out.
Proof.
  destruct (score_groups_spec d out) as (? & ? & ? & _ & -> & _).
  reflexivity.
Qed.

(** The loop can only end by [IndexError]. *)
Lemma score_groups_result (d : list (string * list ResultRec))
    (out : Output Score) :
  snd (score_groups corpus_bleu d out) = Return tt \/
  snd (score_groups corpus_bleu d out) = Raise IndexError.
Proof.
  destruct (score_groups_spec d out)
    as (d1 & d2 & lines & _ & _ & _ & [[_ H]|(entry & rest & e & _ & He & H)]).
  - now left.
  - right. rewrite H.
    destruct (tokenize_of_cases (fst entry)) as [[c Hc]|Hc]; congruence.
Qed.

(** The results file is written before the scoring, whatever the
    lengths of the gathered lists and whatever the scoring does. *)
Lemma coordinator_files (dataset time_prefix : string) (world : list Acc)
    (out : Output Score) :
  files (fst (coordinator corpus_bleu dataset time_prefix world out))
  = files out ++
    [(String.append dataset
        (String.append "_" (String.append time_prefix ".json")),
      build_results world)].
Proof.
  unfold coordinator. now rewrite score_groups_files.
Qed.

Lemma build_results_length (world : list Acc) :
  List.length (build_results world)
  = Nat.min (Nat.min (List.length (merged_gts world))
                     (List.length (merged_responses world)))
            (Nat.min (List.length (merged_sources world))
                     (List.length (merged_audio_paths world))).
Proof.
  unfold build_results. now rewrite length_map, zip4_length.
Qed.

End Scoring.

Lemma build_results_nth_error (world : list Acc) (k : nat) (rec : ResultRec) :
  nth_error (build_results world) k = Some rec <->
  nth_error (merged_gts world) k = Some (r_gt rec) /\
  nth_error (merged_responses world) k = Some (r_response rec) /\
  nth_error (merged_sources world) k = Some (r_source rec) /\
  nth_error (merged_audio_paths world) k = Some (r_audio_path rec).
Proof.
  unfold build_results. rewrite nth_error_map.
  destruct rec as [g r s a]. cbn [r_gt r_response r_source r_audio_path].
  rewrite <- zip4_nth_error.
  destruct (nth_error (Py.zip4 _ _ _ _) k) as [[[[g' r'] s'] a']|]; simpl.
  - split; intros [= -> -> -> ->]; reflexivity.
  - split; discriminate.
Qed.

Lemma build_results_sources (world : list Acc) (rec : ResultRec) :
  In rec (build_results world) -> In (r_source rec) (merged_sources world).
Proof.
  intros Hin. apply In_nth_error in Hin as [k Hk].
  apply build_results_nth_error in Hk as (_ & _ & Hs & _).
  eapply nth_error_In. exact Hs.
Qed.

(** With sources that all have a separator the scoring loop ends well. *)
Lemma coordinator_returns (Score : Type)
    (corpus_bleu : list string -> list (list string) -> string -> Score)
    (dataset time_prefix : string) (world : list Acc) (out : Output Score) :
  (forall s, In s (merged_sources world) -> (1 <= Py.count "_"%char s)%nat) ->
  snd (coordinator corpus_bleu dataset time_prefix world out) = Return tt.
Proof.
  intros Hsep. unfold coordinator.
  match goal with |- snd (score_groups _ ?d ?o) = _ =>
    destruct (score_groups_spec Score corpus_bleu d o)
      as (d1 & d2 & lines & Hd & _ & _ &
          [[_ H]|(entry & rest & e & -> & He & _)])
  end; [exact H|exfalso].
  destruct (group_by_source_inv (build_results world)) as (_ & Hkeys & _).
  assert (Hk : In (fst entry) (map r_source (build_results world))).
  { apply Hkeys. rewrite Hd, map_app, in_app_iff. right. now left. }
  apply in_map_iff in Hk as [rec [Hrec Hin]].
  apply build_results_sources in Hin. rewrite Hrec in Hin.
  specialize (Hsep _ Hin).
  destruct (last_two (Py.split "_"%char (fst entry))) as (pre & a & b & Hs).
  - rewrite split_length. lia.
  - rewrite (tokenize_of_segments _ _ _ _ Hs) in He. discriminate.
Qed.

(** C10. The results list has as many entries as the shortest of the four
    merged lists; its entry [k] holds the elements [k] of the four lists,
    so what the longer lists have beyond that is left out; the list is
    written to the results file as it is, and no exception comes from the
    lengths: with sources that have a separator the coordinator returns
    normally. *)
Theorem results_cut_to_shortest (Score : Type)
    (corpus_bleu : list string -> list (list string) -> string -> Score)
    (dataset time_prefix : string) (world : list Acc) (out : Output Score) :
  Py.len (build_results world)
  = Z.min (Z.min (Py.len (merged_gts world))
                 (Py.len (merged_responses world)))
          (Z.min (Py.len (merged_sources world))
                 (Py.len (merged_audio_paths world))) /\
  (forall k rec,
     nth_error (build_results world) k = Some rec <->
     nth_error (merged_gts world) k = Some (r_gt rec) /\
     nth_error (merged_responses world) k = Some (r_response rec) /\
     nth_error (merged_sources world) k = Some (r_source rec) /\
     nth_error (merged_audio_paths world) k = Some (r_audio_path rec)) /\
  files (fst (coordinator corpus_bleu dataset time_prefix world out))
  = files out ++
    [(String.append dataset
        (String.append "_" (String.append time_prefix ".json")),
      build_results world)] /\
  ((forall s, In s (merged_sources world) ->
              (1 <= Py.count "_"%char s)%nat) ->
   snd (coordinator corpus_bleu dataset time_prefix world out) = Return tt).
Proof.
  split; [|split; [|split]].
  - unfold Py.len. rewrite build_results_length. lia.
  - apply build_results_nth_error.
  - apply coordinator_files.
  - apply coordinator_returns.
Qed.

Lemma results_cut_to_shortest_witness :
  Py.len (merged_gts Sample.world_unequal) = 4 /\
  Py.len (merged_responses Sample.world_unequal) = 3 /\
  Py.len (build_results Sample.world_unequal) = 3 /\
  snd (coordinator Sample.corpus_bleu "en_de" "241103121000"
         Sample.world_unequal (mk_output [] []))
  = Return tt.
Proof.
  destruct (results_cut_to_shortest string Sample.corpus_bleu
              "en_de" "241103121000" Sample.world_unequal (mk_output [] []))
    as (Hlen & _ & _ & Hret).
  split; [reflexivity|]. split; [reflexivity|]. split; [exact Hlen|].
  apply Hret. intros s Hs. vm_compute in Hs.
  destruct Hs as [<-|[<-|[<-|[]]]]; vm_compute; lia.
Defined.

(* ===================================================================== *)
(** ** No count check after the gather *)
(* ===================================================================== *)

(** Two ranks of three planned items: the generation lost a row in every
    batch, the gathered responses are one instead of three, and rank 0
    writes the results file and returns normally. *)
Lemma gather_accepts_count_mismatch :
  AudioDatasetModified.__len__
    (AudioDatasetModified.mk Sample.rows
       AudioDatasetModified.prompt_en_de "covost_en_de_dev" (-1)) = 3 /\
  mapM (worker Sample.load_dataset Sample.processor Sample.infer_one_short
          "en_de" "validation" 2 (-1) 2) (Py.range_list 2)
  = Return [mk_acc ["Hallo"; "Welt"]
                   ["covost_en_de_dev"; "covost_en_de_dev"]
                   ["hyp-a1"] ["a0.wav"; "a1.wav"];
            mk_acc ["Danke"] ["covost_en_de_dev"] [] ["a2.wav"]] /\
  Py.len (merged_responses
            [mk_acc ["Hallo"; "Welt"]
                    ["covost_en_de_dev"; "covost_en_de_dev"]
                    ["hyp-a1"] ["a0.wav"; "a1.wav"];
             mk_acc ["Danke"] ["covost_en_de_dev"] [] ["a2.wav"]]) = 1 /\
  1 <> 3 /\
  run Sample.load_dataset Sample.processor Sample.infer_one_short
      Sample.corpus_bleu "en_de" "validation" 2 (-1) 2 "241103120000"
  = (mk_output
       [("en_de_241103120000.json",
         [mk_result "Hallo" "hyp-a1" "covost_en_de_dev" "a0.wav"])]
       [Evaluating "en_de"; GroupLine "covost_en_de_dev" 1 "13a"],
     Return tt).
Proof.
  repeat split; try (vm_compute; congruence).
Qed.

(** C2, as the code has it. After the gather nothing compares the lengths
    of the lists with the planned count: whatever the ranks hold, each
    merged list has the lengths of the ranks' lists added up, rank 0 writes
    the results file, and the only exception the coordinator can end with is
    the [IndexError] of a source without separator. *)
Theorem gather_has_no_count_check (Score : Type)
    (corpus_bleu : list string -> list (list string) -> string -> Score)
    (dataset time_prefix : string) (world : list Acc) (out : Output Score) :
  let total f :=
    fold_right (fun acc n => Py.len (f acc) + n) 0 world in
  Py.len (merged_gts world) = total gts /\
  Py.len (merged_sources world) = total sources /\
  Py.len (merged_responses world) = total rets /\
  Py.len (merged_audio_paths world) = total audio_paths /\
  files (fst (coordinator corpus_bleu dataset time_prefix world out))
  = files out ++
    [(String.append dataset
        (String.append "_" (String.append time_prefix ".json")),
      build_results world)] /\
  (snd (coordinator corpus_bleu dataset time_prefix world out) = Return tt \/
   snd (coordinator corpus_bleu dataset time_prefix world out)
   = Raise IndexError).
Proof.
  cbv zeta.
  assert (Hlen : forall f : Acc -> list string,
            Py.len (Py.chain_from_iterable (map f world))
            = fold_right (fun acc n => Py.len (f acc) + n) 0 world).
  { intros f. unfold Py.len. rewrite chain_length.
    induction world as [|a w IH]; simpl; [reflexivity|].
    rewrite <- IH. lia. }
  repeat split; try apply Hlen.
  - apply coordinator_files.
  - unfold coordinator. apply score_groups_result.
Qed.

(* ===================================================================== *)
(** ** The inference loop and the whole run *)
(* ===================================================================== *)

Lemma mapM_total {A B : Type} (f : A -> result B) (l : list A) :
  (forall a, In a l -> exists b, f a = Return b) ->
  exists bs, mapM f l = Return bs /\
             Forall2 (fun a b => f a = Return b) l bs.
Proof.
  induction l as [|a l IH]; intros Hf.
  - exists []. split; [reflexivity|constructor].
  - destruct (Hf a (or_introl eq_refl)) as [b Hb].
    destruct IH as [bs [Hbs Hall]].
    { intros a' Ha'. apply Hf. now right. }
    exists (b :: bs). simpl. rewrite Hb, Hbs. cbn [bind].
    split; [reflexivity|now constructor].
Qed.

Lemma mapM_Forall2 {A B : Type} (f : A -> result B) (l : list A)
    (bs : list B) :
  mapM f l = Return bs -> Forall2 (fun a b => f a = Return b) l bs.
Proof.
  revert bs. induction l as [|a l IH]; intros bs; simpl.
  - intros [= <-]. constructor.
  - destruct (f a) as [b|] eqn:Hb; [|discriminate]. cbn [bind].
    destruct (mapM f l) as [bs'|]; [|discriminate]. cbn [bind].
    intros [= <-]. constructor; [exact Hb|now apply IH].
Qed.

Lemma mapM_raise_head {A B : Type} (f : A -> result B) (a : A) (l : list A)
    (e : exn) :
  f a = Raise e -> mapM f (a :: l) = Raise e.
Proof.
  intros H. simpl. now rewrite H.
Qed.

Lemma Forall2_In_right {A B : Type} (R : A -> B -> Prop) l bs b :
  Forall2 R l bs -> In b bs -> exists a, In a l /\ R a b.
Proof.
  induction 1 as [|a0 b0 l bs HR Hall IH]; intros Hin.
  - contradiction.
  - destruct Hin as [<-|Hin].
    + exists a0. split; [now left|exact HR].
    + destruct (IH Hin) as [a [Ha HRa]]. exists a. split; [now right|exact HRa].
Qed.

Lemma getitem_in_range {A : Type} (l : list A) (i : Z) :
  0 <= i < Py.len l -> exists a, Py.getitem l i = Return a.
Proof.
  unfold Py.getitem, Py.len. intros Hi.
  destruct (Z.ltb_spec i 0); [lia|].
  destruct (Z.ltb_spec i 0); [lia|].
  destruct (nth_error l (Z.to_nat i)) as [a|] eqn:Hn.
  - now exists a.
  - apply nth_error_None in Hn. lia.
Qed.

Lemma batch_sampler_elems (batch_size : Z) (batch indices b : list Z) (i : Z) :
  In b (batch_sampler batch_size batch indices) -> In i b ->
  In i batch \/ In i indices.
Proof.
  revert batch. induction indices as [|idx rest IH]; intros batch Hb Hi.
  - simpl in Hb. destruct (0 <? Py.len batch); [|contradiction].
    destruct Hb as [<-|[]]. now left.
  - simpl in Hb. destruct (Py.len (batch ++ [idx]) =? batch_size).
    + destruct Hb as [<-|Hb].
      * apply in_app_iff in Hi as [Hi|[<-|[]]]; [now left|right; now left].
      * destruct (IH [] Hb Hi) as [[]|H]. right. now right.
    + destruct (IH _ Hb Hi) as [H|H].
      * apply in_app_iff in H as [H|[<-|[]]]; [now left|right; now left].
      * right. now right.
Qed.

Section Run.

Variables Audio Inputs Score : Type.
Variable load_dataset : string -> string -> string -> list (Row Audio).
Variable processor : list string -> list Audio -> Inputs.
Variable infer : Inputs -> list string.
Variable corpus_bleu : list string -> list (list string) -> string -> Score.

(** The loop adds to each list what each batch brings, batch after
    batch; to [rets] it adds what the generation returned, whatever its
    length. *)
Lemma worker_loop_spec (batches : list (Batch Inputs)) :
  worker_loop infer batches
  = mk_acc (List.concat (map batch_gt batches))
           (List.concat (map batch_source batches))
           (List.concat (map (fun b => infer (batch_inputs b)) batches))
           (List.concat (map batch_audio_path batches)).
Proof.
  unfold worker_loop.
  assert (H : forall acc,
            fold_left (loop_body infer) batches acc
            = mk_acc
                (gts acc ++ List.concat (map batch_gt batches))
                (sources acc ++ List.concat (map batch_source batches))
                (rets acc ++
                 List.concat (map (fun b => infer (batch_inputs b)) batches))
                (audio_paths acc ++
                 List.concat (map batch_audio_path batches))).
  { induction batches as [|b bs IH]; intros acc; simpl.
    - rewrite !app_nil_r. now destruct acc.
    - rewrite IH. unfold loop_body. cbn [gts sources rets audio_paths].
      now rewrite <- !app_assoc. }
  apply (H (mk_acc [] [] [] [])).
Qed.

Lemma init_source (dataset split : string) (limit : Z)
    (self : AudioDatasetModified.t Audio) :
  AudioDatasetModified.__init__ load_dataset dataset split limit
  = Return self ->
  (3 <= Py.count "_"%char (AudioDatasetModified.source self))%nat.
Proof.
  unfold AudioDatasetModified.__init__.
  destruct (String.eqb dataset "en_de").
  - intros [= <-]. vm_compute. lia.
  - destruct (String.eqb dataset "en_zh"); [|discriminate].
    intros [= <-]. vm_compute. lia.
Qed.

Lemma len_le_rows (self : AudioDatasetModified.t Audio) :
  AudioDatasetModified.__len__ self
  <= Py.len (AudioDatasetModified.ds self).
Proof.
  unfold AudioDatasetModified.__len__.
  destruct (AudioDatasetModified.limit self >? 0); lia.
Qed.

(** With a positive batch size and a sampler whose indices are rows of
    the dataset, the loader yields its batches, and every source in them
    is the source of the dataset. *)
Lemma data_loader_total (self : AudioDatasetModified.t Audio)
    (sampler : InferenceSampler.t) (batch_size : Z) :
  0 < batch_size ->
  (forall i, In i (InferenceSampler.__iter__ sampler) ->
             0 <= i < Py.len (AudioDatasetModified.ds self)) ->
  exists batches,
    data_loader processor self sampler batch_size = Return batches /\
    forall b s, In b batches -> In s (batch_source b) ->
                s = AudioDatasetModified.source self.
Proof.
  intros Hbs Hidx. unfold data_loader.
  destruct (Z.leb_spec batch_size 0); [lia|].
  match goal with |- context [mapM ?f ?l] =>
    destruct (mapM_total f l) as [batches [Hret Hall]]
  end.
  - intros idxs Hin.
    destruct (mapM_total (AudioDatasetModified.__getitem__ self) idxs)
      as [items [Hitems _]].
    + intros i Hi. unfold AudioDatasetModified.__getitem__.
      destruct (getitem_in_range (AudioDatasetModified.ds self) i)
        as [row Hrow].
      * apply Hidx.
        destruct (batch_sampler_elems _ _ _ _ _ Hin Hi) as [[]|H0].
        exact H0.
      * rewrite Hrow. cbn [bind]. eexists. reflexivity.
    + rewrite Hitems. cbn [bind]. eexists. reflexivity.
  - exists batches. split; [exact Hret|].
    intros b s Hb Hs.
    destruct (Forall2_In_right _ _ _ _ Hall Hb) as [idxs [_ Hf]].
    destruct (mapM (AudioDatasetModified.__getitem__ self) idxs)
      as [items|] eqn:Hitems; [|discriminate].
    cbn [bind] in Hf. injection Hf as <-.
    unfold collate_fn_modified in Hs. cbn [batch_source] in Hs.
    apply in_map_iff in Hs as [item [<- Hitem]].
    apply mapM_Forall2 in Hitems.
    destruct (Forall2_In_right _ _ _ _ Hitems Hitem) as [i [_ Hg]].
    unfold AudioDatasetModified.__getitem__ in Hg.
    destruct (Py.getitem _ i); [|discriminate].
    cbn [bind] in Hg. injection Hg as <-. reflexivity.
Qed.

Lemma range_list_In (n r : Z) : In r (Py.range_list n) <-> 0 <= r < n.
Proof.
  unfold Py.range_list. rewrite in_map_iff. split.
  - intros [k [<- Hk]]. apply in_seq in Hk. lia.
  - intros Hr. exists (Z.to_nat r). split; [lia|]. apply in_seq. lia.
Qed.

(** On a dataset that is not empty, a rank of the world ends its loop
    whatever the generation returns. *)
Lemma worker_total (dataset split : string) (batch_size limit W r : Z)
    (self : AudioDatasetModified.t Audio) :
  AudioDatasetModified.__init__ load_dataset dataset split limit
  = Return self ->
  0 < AudioDatasetModified.__len__ self ->
  0 < W -> 0 <= r < W -> 0 < batch_size ->
  exists acc,
    worker load_dataset processor infer dataset split batch_size limit W r
    = Return acc /\
    forall s, In s (sources acc) -> s = AudioDatasetModified.source self.
Proof.
  intros Hinit HN HW Hr Hbs. unfold worker. rewrite Hinit. cbn [bind].
  destruct (local_indices_in_bounds _ W r HN HW Hr) as [rg [Hrg Hb]].
  unfold InferenceSampler.__init__.
  destruct (Z.gtb_spec (AudioDatasetModified.__len__ self) 0); [|lia].
  rewrite Hrg. cbn [bind].
  destruct (data_loader_total self
              (InferenceSampler.mk (AudioDatasetModified.__len__ self)
                                   r W rg) batch_size Hbs)
    as [batches [Hret Hsrc]].
  - intros i Hi. unfold InferenceSampler.__iter__ in Hi. cbn in Hi.
    apply range_elems_In in Hi. unfold Py.range_mem in Hi.
    pose proof (len_le_rows self). lia.
  - rewrite Hret. cbn [bind]. eexists. split; [reflexivity|].
    intros s Hs. rewrite worker_loop_spec in Hs. cbn [sources] in Hs.
    apply in_concat in Hs as [l [Hl Hs]].
    apply in_map_iff in Hl as [b [<- Hb']].
    now apply (Hsrc b s).
Qed.

(** On a dataset that is not empty, with a positive world size and a
    positive batch size, the run ends normally with the results file
    written, whatever the generation returns. *)
Lemma run_total (dataset split : string) (batch_size limit W : Z)
    (time_prefix : string) (self : AudioDatasetModified.t Audio) :
  AudioDatasetModified.__init__ load_dataset dataset split limit
  = Return self ->
  0 < AudioDatasetModified.__len__ self ->
  0 < W -> 0 < batch_size ->
  exists world,
    mapM (worker load_dataset processor infer dataset split batch_size
                 limit W) (Py.range_list W)
    = Return world /\
    run load_dataset processor infer corpus_bleu dataset split batch_size
        limit W time_prefix
    = coordinator corpus_bleu dataset time_prefix world (mk_output [] []) /\
    files (fst (run load_dataset processor infer corpus_bleu dataset split
                    batch_size limit W time_prefix))
    = [(String.append dataset
          (String.append "_" (String.append time_prefix ".json")),
        build_results world)] /\
    snd (run load_dataset processor infer corpus_bleu dataset split
             batch_size limit W time_prefix)
    = Return tt.
Proof.
  intros Hinit HN HW Hbs.
  destruct (mapM_total
              (worker load_dataset processor infer dataset split batch_size
                      limit W) (Py.range_list W))
    as [world [Hworld Hall]].
  - intros r Hr. apply range_list_In in Hr.
    destruct (worker_total dataset split batch_size limit W r self
                Hinit HN HW Hr Hbs) as [acc [Hacc _]].
    now exists acc.
  - exists world. split; [exact Hworld|].
    unfold run. rewrite Hworld. split; [reflexivity|].
    split; [apply coordinator_files|].
    apply coordinator_returns. intros s Hs.
    unfold merged_sources in Hs. rewrite chain_is_concat in Hs.
    apply in_concat in Hs as [l [Hl Hs]].
    apply in_map_iff in Hl as [acc [<- Hacc]].
    destruct (Forall2_In_right _ _ _ _ Hall Hacc) as [r [Hr Hw]].
    apply range_list_In in Hr.
    destruct (worker_total dataset split batch_size limit W r self
                Hinit HN HW Hr Hbs) as [acc' [Hacc' Hsrc]].
    assert (acc' = acc) by congruence. subst acc'.
    rewrite (Hsrc s Hs).
    pose proof (init_source dataset split limit self Hinit). lia.
Qed.

(** On an empty dataset the sampler of rank 0 refuses the size, and the
    run ends there: no batch is drawn, nothing is written. *)
Lemma run_empty_dataset (dataset split : string) (batch_size limit W : Z)
    (time_prefix : string) (self : AudioDatasetModified.t Audio) :
  AudioDatasetModified.__init__ load_dataset dataset split limit
  = Return self ->
  AudioDatasetModified.__len__ self <= 0 ->
  0 < W ->
  run load_dataset processor infer corpus_bleu dataset split batch_size
      limit W time_prefix
  = (mk_output [] [], Raise AssertionError).
Proof.
  intros Hinit HN HW. unfold run, Py.range_list.
  destruct (Z.to_nat W) as [|n] eqn:HWn; [lia|].
  cbn [seq map].
  rewrite (mapM_raise_head _ _ _ AssertionError); [reflexivity|].
  unfold worker. rewrite Hinit. cbn [bind].
  unfold InferenceSampler.__init__.
  destruct (Z.gtb_spec (AudioDatasetModified.__len__ self) 0); [lia|].
  reflexivity.
Qed.

End Run.

(* ===================================================================== *)
(** ** The arguments the sampler refuses *)
(* ===================================================================== *)

(** With a negative world size the sampler is built: [range(world_size)]
    is empty, both slices are empty, and the range is [range(0, 0)]. *)
Lemma sampler_accepts_negative_world_size :
  -3 <= 0 /\
  InferenceSampler.__init__ 10 (-3) 0
  = Return (InferenceSampler.mk 10 0 (-3) (Py.mk_range 0 0)) /\
  InferenceSampler._get_local_indices 10 (-3) 0 = Return (Py.mk_range 0 0).
Proof.
  repeat split; vm_compute; congruence.
Qed.

(** C5, as the code has it. The sampler refuses a size N <= 0 with
    [AssertionError]; it does not look at the world size: W = 0 fails in
    the division with [ZeroDivisionError], and every other W, also a
    negative one, is accepted when N > 0; in particular the sampler is
    built for all N > 0 and W > 0.  The sampler is built before the first
    batch is drawn: on an empty dataset the run ends with the
    [AssertionError] and has written nothing. *)
Theorem sampler_init_failures (N W r : Z) :
  (N <= 0 -> InferenceSampler.__init__ N W r = Raise AssertionError) /\
  (0 < N -> W = 0 ->
     InferenceSampler.__init__ N W r = Raise ZeroDivisionError) /\
  (0 < N -> W <> 0 -> raises (InferenceSampler.__init__ N W r) = false) /\
  (0 < N -> 0 < W ->
     exists s, InferenceSampler.__init__ N W r = Return s /\
               InferenceSampler._size s = N /\
               InferenceSampler._world_size s = W /\
               InferenceSampler._rank s = r) /\
  (forall (Audio Inputs Score : Type)
          (load_dataset : string -> string -> string -> list (Row Audio))
          (processor : list string -> list Audio -> Inputs)
          (infer : Inputs -> list string)
          (corpus_bleu : list string -> list (list string) -> string -> Score)
          (dataset split time_prefix : string) (batch_size limit : Z)
          (self : AudioDatasetModified.t Audio),
     AudioDatasetModified.__init__ load_dataset dataset split limit
     = Return self ->
     AudioDatasetModified.__len__ self = N ->
     N <= 0 -> 0 < W ->
     run load_dataset processor infer corpus_bleu dataset split batch_size
         limit W time_prefix
     = (mk_output [] [], Raise AssertionError)).
Proof.
  unfold InferenceSampler.__init__, InferenceSampler._get_local_indices,
    Py.floordiv, Py.mod_.
  split; [|split; [|split; [|split]]].
  - intros HN. destruct (Z.gtb_spec N 0); [lia|reflexivity].
  - intros HN ->. destruct (Z.gtb_spec N 0); [reflexivity|lia].
  - intros HN HW. destruct (Z.gtb_spec N 0); [|lia].
    destruct (Z.eqb_spec W 0); [contradiction|reflexivity].
  - intros HN HW. destruct (Z.gtb_spec N 0); [|lia].
    destruct (Z.eqb_spec W 0); [lia|]. cbn [bind].
    eexists. split; [reflexivity|]. cbn. auto.
  - intros Audio Inputs Score load_dataset processor infer corpus_bleu
      dataset split time_prefix batch_size limit self Hinit Hlen HN HW.
    apply run_empty_dataset with (self := self); [exact Hinit|lia|exact HW].
Qed.

Lemma sampler_init_failures_witness :
  InferenceSampler.__init__ 0 2 0 = Raise AssertionError /\
  InferenceSampler.__init__ 4 0 0 = Raise ZeroDivisionError /\
  raises (InferenceSampler.__init__ 4 2 1) = false /\
  run (fun _ _ _ => @nil (Row string)) Sample.processor Sample.infer_all
      Sample.corpus_bleu "en_de" "validation" 2 (-1) 2 "241103120000"
  = (mk_output [] [], Raise AssertionError).
Proof.
  split; [|split; [|split]].
  - apply (sampler_init_failures 0 2 0). lia.
  - apply (sampler_init_failures 4 0 0); lia.
  - apply (sampler_init_failures 4 2 1); lia.
  - apply (proj2 (proj2 (proj2 (proj2 (sampler_init_failures 0 2 0)))))
      with (self := AudioDatasetModified.mk []
                      AudioDatasetModified.prompt_en_de
                      "covost_en_de_dev" (-1));
      [reflexivity|reflexivity|lia|lia].
Defined.

(* ===================================================================== *)
(** ** Predictions that do not match the batch *)
(* ===================================================================== *)

(** One rank, two planned items in one batch: the generation returns one
    string for the two rows; the loop keeps it, the run goes on, and the
    results file pairs the first ground truth with the prediction of the
    second row. *)
Lemma worker_accepts_short_prediction :
  data_loader Sample.processor
    (AudioDatasetModified.mk Sample.rows AudioDatasetModified.prompt_en_zh
       "covost_en_zh_dev" 2)
    (InferenceSampler.mk 2 0 1 (Py.mk_range 0 2)) 3
  = Return [mk_batch ["a0"; "a1"] ["a0.wav"; "a1.wav"]
                     ["covost_en_zh_dev"; "covost_en_zh_dev"]
                     ["Hallo"; "Welt"]] /\
  Sample.infer_one_short ["a0"; "a1"] = ["hyp-a1"] /\
  worker Sample.load_dataset Sample.processor Sample.infer_one_short
         "en_zh" "validation" 3 2 1 0
  = Return (mk_acc ["Hallo"; "Welt"]
                   ["covost_en_zh_dev"; "covost_en_zh_dev"]
                   ["hyp-a1"] ["a0.wav"; "a1.wav"]) /\
  run Sample.load_dataset Sample.processor Sample.infer_one_short
      Sample.corpus_bleu "en_zh" "validation" 3 2 1 "241103120500"
  = (mk_output
       [("en_zh_241103120500.json",
         [mk_result "Hallo" "hyp-a1" "covost_en_zh_dev" "a0.wav"])]
       [Evaluating "en_zh"; GroupLine "covost_en_zh_dev" 1 "zh"],
     Return tt).
Proof.
  repeat split; vm_compute; reflexivity.
Qed.

(** C3, as the code has it. The loop does not compare the number of
    predictions with the batch: it adds the ground truths, sources and audio
    paths of each batch and whatever the generation returned to its four
    lists, which may then differ in length; and on a dataset that is not
    empty, with a positive world size and batch size, the run ends normally
    and writes the results file, whatever the generation returns. *)
Theorem worker_loop_keeps_any_prediction (Audio Inputs Score : Type)
    (load_dataset : string -> string -> string -> list (Row Audio))
    (processor : list string -> list Audio -> Inputs)
    (infer : Inputs -> list string)
    (corpus_bleu : list string -> list (list string) -> string -> Score) :
  (forall batches : list (Batch Inputs),
     worker_loop infer batches
     = mk_acc (List.concat (map batch_gt batches))
              (List.concat (map batch_source batches))
              (List.concat (map (fun b => infer (batch_inputs b)) batches))
              (List.concat (map batch_audio_path batches))) /\
  (forall (dataset split time_prefix : string) (batch_size limit W : Z)
          (self : AudioDatasetModified.t Audio),
     AudioDatasetModified.__init__ load_dataset dataset split limit
     = Return self ->
     0 < AudioDatasetModified.__len__ self ->
     0 < W -> 0 < batch_size ->
     exists world,
       mapM (worker load_dataset processor infer dataset split batch_size
                    limit W) (Py.range_list W)
       = Return world /\
       files (fst (run load_dataset processor infer corpus_bleu dataset
                       split batch_size limit W time_prefix))
       = [(String.append dataset
             (String.append "_" (String.append time_prefix ".json")),
           build_results world)] /\
       snd (run load_dataset processor infer corpus_bleu dataset split
                batch_size limit W time_prefix)
       = Return tt).
Proof.
  split.
  - apply worker_loop_spec.
  - intros dataset split time_prefix batch_size limit W self Hinit HN HW Hbs.
    destruct (run_total Audio Inputs Score load_dataset processor infer
                corpus_bleu dataset split batch_size limit W time_prefix
                self Hinit HN HW Hbs) as (world & Hw & _ & Hf & Hs).
    exists world. auto.
Qed.

Lemma worker_loop_keeps_any_prediction_witness :
  exists world,
    mapM (worker Sample.load_dataset Sample.processor Sample.infer_one_short
            "en_zh" "test" 2 0 2) (Py.range_list 2)
    = Return world /\
    files (fst (run Sample.load_dataset Sample.processor
                    Sample.infer_one_short Sample.corpus_bleu
                    "en_zh" "test" 2 0 2 "241103130000"))
    = [("en_zh_241103130000.json", build_results world)] /\
    snd (run Sample.load_dataset Sample.processor Sample.infer_one_short
             Sample.corpus_bleu "en_zh" "test" 2 0 2 "241103130000")
    = Return tt.
Proof.
  apply (proj2 (worker_loop_keeps_any_prediction string (list string) string
                  Sample.load_dataset Sample.processor Sample.infer_one_short
                  Sample.corpus_bleu))
    with (self := AudioDatasetModified.mk Sample.rows
                    AudioDatasetModified.prompt_en_zh "covost_en_zh_dev" 0);
    [reflexivity|vm_compute; reflexivity|lia|lia].
Defined.

(* ===================================================================== *)
(** ** The groups, their tokenizer and their counts *)
(* ===================================================================== *)

Section Report.

Variable Score : Type.
Variable corpus_bleu : list string -> list (list string) -> string -> Score.

(** Every group line printed is the line of the items of its source. *)
Lemma report_lines (results : list ResultRec) (l : line Score) :
  In l (report corpus_bleu results) ->
  exists source text_lan,
    In source (map r_source results) /\
    tokenize_of source = Return text_lan /\
    l = group_line corpus_bleu text_lan source (items_of source results).
Proof.
  unfold report. intros Hin.
  destruct (score_groups_spec Score corpus_bleu
              (group_by_source results) (mk_output [] []))
    as (d1 & d2 & lines & Hd & Hfst & Hall & _).
  rewrite Hfst in Hin. cbn [stdout app] in Hin.
  destruct (Forall2_In_right _ _ _ _ Hall Hin)
    as [[k v] [Hentry [text_lan [Htok ->]]]].
  destruct (group_by_source_inv results) as (_ & Hkeys & Hvals).
  assert (Hd' : In (k, v) (group_by_source results)).
  { rewrite Hd. apply in_app_iff. now left. }
  exists k, text_lan. cbn [fst snd] in *. repeat split.
  - apply Hkeys. apply (in_map fst _ _ Hd').
  - exact Htok.
  - now rewrite (Hvals k v Hd').
Qed.

(** When every source has a separator the report has one line per
    entry of the dictionary. *)
Lemma report_complete (results : list ResultRec) :
  (forall s, In s (map r_source results) ->
             (1 <= Py.count "_"%char s)%nat) ->
  Forall2 (line_of_entry corpus_bleu) (group_by_source results)
          (report corpus_bleu results) /\
  snd (score_groups corpus_bleu (group_by_source results) (mk_output [] []))
  = Return tt.
Proof.
  intros Hsep. unfold report.
  destruct (score_groups_spec Score corpus_bleu
              (group_by_source results) (mk_output [] []))
    as (d1 & d2 & lines & Hd & Hfst & Hall &
        [[-> Hret]|(entry & rest & e & -> & He & _)]).
  - rewrite app_nil_r in Hd. subst d1. rewrite Hfst. cbn [stdout app].
    split; [exact Hall|exact Hret].
  - exfalso.
    destruct (group_by_source_inv results) as (_ & Hkeys & _).
    assert (Hk : In (fst entry) (map r_source results)).
    { apply Hkeys. rewrite Hd, map_app, in_app_iff. right. now left. }
    specialize (Hsep _ Hk).
    destruct (last_two (Py.split "_"%char (fst entry)))
      as (pre & a & b & Hs).
    + rewrite split_length. lia.
    + rewrite (tokenize_of_segments _ _ _ _ Hs) in He. discriminate.
Qed.

(** When every source has a separator the report is, source by source in
    the order of the dictionary, the line of the items of the source. *)
Lemma report_as_map (results : list ResultRec) :
  (forall s, In s (map r_source results) ->
             (1 <= Py.count "_"%char s)%nat) ->
  report corpus_bleu results
  = map (fun k =>
           group_line corpus_bleu
             (match tokenize_of k with Return t => t | Raise _ => "13a" end)
             k (items_of k results))
        (map fst (group_by_source results)).
Proof.
  intros Hsep. destruct (report_complete results Hsep) as [Hall _].
  destruct (group_by_source_inv results) as (_ & _ & Hvals).
  revert Hall Hvals.
  generalize (report corpus_bleu results) as lines.
  generalize (group_by_source results) as d.
  induction d as [|[k v] d IH]; intros lines Hall Hvals;
    inversion Hall as [|? l ? lines' Hl Hall']; subst.
  - reflexivity.
  - cbn [map fst]. f_equal.
    + destruct Hl as [t [Ht ->]]. cbn [fst snd] in *.
      rewrite Ht. f_equal. apply Hvals. now left.
    + apply IH; [exact Hall'|].
      intros k' v' Hin. apply Hvals. now right.
Qed.

End Report.

(** What the coordinator prints is what was printed before, the line that
    names the dataset and the report of the results list. *)
Lemma coordinator_stdout (Score : Type)
    (corpus_bleu : list string -> list (list string) -> string -> Score)
    (dataset time_prefix : string) (world : list Acc) (out : Output Score) :
  stdout (fst (coordinator corpus_bleu dataset time_prefix world out))
  = stdout out ++ Evaluating dataset :: report corpus_bleu (build_results world).
Proof.
  assert (Hshift : forall d (o : Output Score),
            stdout (fst (score_groups corpus_bleu d o))
            = stdout o
              ++ stdout (fst (score_groups corpus_bleu d (mk_output [] [])))).
  { induction d as [|[source results_list] d IH]; intros o.
    - cbn [score_groups fst stdout]. now rewrite app_nil_r.
    - cbn [score_groups].
      destruct (score_group corpus_bleu source results_list) as [l|e].
      + rewrite IH. cbn [files stdout app].
        rewrite (IH (mk_output [] [l])). cbn [stdout].
        now rewrite <- app_assoc.
      + cbn [fst stdout]. now rewrite app_nil_r. }
  unfold coordinator, report. rewrite Hshift. cbn [stdout].
  now rewrite <- app_assoc.
Qed.

(** C4. The tokenizer of a group is the policy of the second-to-last
    segment of its tag: [ja] gives [ja-mecab], [zh] gives [zh], every other
    code the default [13a]; [covost_en_de_dev] is scored with [13a] and
    [covost_en_zh_dev] with [zh].  Every group line printed carries the
    number of the items of its tag, scored with that tokenizer, and this
    number does not change when the items are reordered.  For the two
    groups of two items of the scenario, in any order, the report is the
    two lines with count 2, the first group scored with the default and the
    second with [zh].  Every group is scored and reported: when every tag
    has a separator the loop returns and the report is, tag by tag in the
    order of the dictionary, which has each tag of the results exactly once,
    the line with the tag, the number of its items and the score of its
    items under the policy of its second-to-last segment; and this report
    is what the coordinator prints after the line that names the dataset. *)
Theorem group_policy_and_counts (Score : Type)
    (corpus_bleu : list string -> list (list string) -> string -> Score) :
  (forall source pre code last,
     Py.split "_"%char source = pre ++ [code; last] ->
     tokenize_of source = Return (policy_table code)) /\
  (policy_table "ja" = "ja-mecab" /\ policy_table "zh" = "zh" /\
   forall code, code <> "ja" -> code <> "zh" -> policy_table code = "13a") /\
  (tokenize_of "covost_en_de_dev" = Return "13a" /\
   tokenize_of "covost_en_zh_dev" = Return "zh") /\
  (forall results source cnt bleu,
     In (GroupLine source cnt bleu) (report corpus_bleu results) ->
     cnt = Py.len (items_of source results) /\
     exists text_lan,
       tokenize_of source = Return text_lan /\
       bleu = corpus_bleu (map r_response (items_of source results))
                          [map r_gt (items_of source results)] text_lan) /\
  (forall results results' source cnt cnt' bleu bleu',
     Permutation results results' ->
     In (GroupLine source cnt bleu) (report corpus_bleu results) ->
     In (GroupLine source cnt' bleu') (report corpus_bleu results') ->
     cnt = cnt') /\
  (forall results,
     Permutation Sample.two_groups results ->
     snd (score_groups corpus_bleu (group_by_source results)
                       (mk_output [] [])) = Return tt /\
     Permutation
       (report corpus_bleu results)
       [GroupLine "covost_en_de_dev" 2
          (corpus_bleu
             (map r_response (items_of "covost_en_de_dev" results))
             [map r_gt (items_of "covost_en_de_dev" results)] "13a");
        GroupLine "covost_en_zh_dev" 2
          (corpus_bleu
             (map r_response (items_of "covost_en_zh_dev" results))
             [map r_gt (items_of "covost_en_zh_dev" results)] "zh")]) /\
  (forall results,
     (forall s, In s (map r_source results) ->
                (1 <= Py.count "_"%char s)%nat) ->
     snd (score_groups corpus_bleu (group_by_source results)
                       (mk_output [] [])) = Return tt /\
     NoDup (map fst (group_by_source results)) /\
     (forall s, In s (map fst (group_by_source results))
                <-> In s (map r_source results)) /\
     (forall s, In s (map r_source results) ->
        exists pre code last,
          Py.split "_"%char s = pre ++ [code; last] /\
          tokenize_of s = Return (policy_table code) /\
          In (GroupLine s (Py.len (items_of s results))
                (corpus_bleu (map r_response (items_of s results))
                             [map r_gt (items_of s results)]
                             (policy_table code)))
             (report corpus_bleu results)) /\
     report corpus_bleu results
     = map (fun k =>
              GroupLine k (Py.len (items_of k results))
                (corpus_bleu (map r_response (items_of k results))
                             [map r_gt (items_of k results)]
                             (match tokenize_of k with
                              | Return t => t
                              | Raise _ => "13a"
                              end)))
           (map fst (group_by_source results))) /\
  (forall dataset time_prefix world out,
     stdout (fst (coordinator corpus_bleu dataset time_prefix world out))
     = stdout out
       ++ Evaluating dataset :: report corpus_bleu (build_results world)).
Proof.
  assert (Hline : forall results source cnt bleu,
            In (GroupLine source cnt bleu) (report corpus_bleu results) ->
            cnt = Py.len (items_of source results) /\
            exists text_lan,
              tokenize_of source = Return text_lan /\
              bleu = corpus_bleu (map r_response (items_of source results))
                       [map r_gt (items_of source results)] text_lan).
  { intros results source cnt bleu Hin.
    destruct (report_lines Score corpus_bleu results _ Hin)
      as (k & t & _ & Ht & Heq).
    unfold group_line in Heq. injection Heq as -> -> ->.
    split; [reflexivity|]. exists t. now split. }
  split; [|split; [|split; [|split; [|split; [|split; [|split]]]]]].
  - apply tokenize_of_segments.
  - unfold policy_table. repeat split.
    intros code Hja Hzh.
    destruct (String.eqb_spec code "ja"); [contradiction|].
    destruct (String.eqb_spec code "zh"); [contradiction|reflexivity].
  - split; reflexivity.
  - exact Hline.
  - intros results results' source cnt cnt' bleu bleu' HP H1 H2.
    destruct (Hline _ _ _ _ H1) as [-> _].
    destruct (Hline _ _ _ _ H2) as [-> _].
    unfold Py.len. now rewrite (items_of_perm source _ _ HP).
  - intros results HP.
    assert (Hsrc : forall s, In s (map r_source results) <->
                     s = "covost_en_de_dev" \/ s = "covost_en_zh_dev").
    { intros s.
      rewrite <- (Permutation_in' (eq_refl s)
                    (Permutation_map r_source HP)).
      simpl. intuition congruence. }
    assert (Hsep : forall s, In s (map r_source results) ->
                     (1 <= Py.count "_"%char s)%nat).
    { intros s Hs. apply Hsrc in Hs as [->| ->]; vm_compute; lia. }
    split; [apply (report_complete Score corpus_bleu results Hsep)|].
    rewrite (report_as_map Score corpus_bleu results Hsep).
    destruct (group_by_source_inv results) as (Hnd & Hkeys & _).
    assert (HPk : Permutation (map fst (group_by_source results))
                    ["covost_en_de_dev"; "covost_en_zh_dev"]).
    { apply NoDup_Permutation; [exact Hnd| |].
      - repeat constructor; simpl; intuition discriminate.
      - intros s. rewrite Hkeys, Hsrc. simpl. intuition congruence. }
    apply (Permutation_map
             (fun k =>
                group_line corpus_bleu
                  (match tokenize_of k with
                   | Return t => t | Raise _ => "13a" end)
                  k (items_of k results))) in HPk.
    cbn [map] in HPk.
    replace (tokenize_of "covost_en_de_dev") with (@Return string "13a")
      in HPk by reflexivity.
    replace (tokenize_of "covost_en_zh_dev") with (@Return string "zh")
      in HPk by reflexivity.
    unfold group_line, Py.len in HPk.
    rewrite <- !(items_of_perm _ _ _ HP) in HPk.
    exact HPk.
  - intros results Hsep.
    destruct (group_by_source_inv results) as (Hnd & Hkeys & _).
    pose proof (report_as_map Score corpus_bleu results Hsep) as Hmap.
    unfold group_line in Hmap.
    split; [apply (report_complete Score corpus_bleu results Hsep)|].
    split; [exact Hnd|]. split; [exact Hkeys|]. split; [|exact Hmap].
    intros s Hs.
    destruct (last_two (Py.split "_"%char s)) as (pre & code & last & Hsp).
    { rewrite split_length. specialize (Hsep s Hs). lia. }
    pose proof (tokenize_of_segments _ _ _ _ Hsp) as Htok.
    exists pre, code, last. split; [exact Hsp|]. split; [exact Htok|].
    rewrite Hmap. apply in_map_iff. exists s. split.
    + now rewrite Htok.
    + now apply Hkeys.
  - intros dataset time_prefix world out. apply coordinator_stdout.
Qed.

Lemma group_policy_and_counts_witness :
  tokenize_of "wmt_en_ja_test" = Return "ja-mecab" /\
  Permutation
    (report Sample.corpus_bleu (rev Sample.two_groups))
    [GroupLine "covost_en_de_dev" 2 "13a";
     GroupLine "covost_en_zh_dev" 2 "zh"] /\
  report Sample.corpus_bleu
    [mk_result "Hallo" "Hallo" "covost_en_de_dev" "a0.wav";
     mk_result "ni hao" "ni hao" "covost_en_zh_dev" "b0.wav";
     mk_result "Welt" "Erde" "covost_en_de_dev" "a1.wav";
     mk_result "Danke" "Danke" "covost_en_de_dev" "a2.wav"]
  = [GroupLine "covost_en_de_dev" 3 "13a";
     GroupLine "covost_en_zh_dev" 1 "zh"].
Proof.
  destruct (group_policy_and_counts string Sample.corpus_bleu)
    as (Htok & _ & _ & _ & _ & Hscen & Hall & _).
  split; [|split].
  - apply (Htok "wmt_en_ja_test" ["wmt"; "en"] "ja" "test"). reflexivity.
  - apply (Hscen (rev Sample.two_groups)). apply Permutation_rev.
  - destruct (Hall [mk_result "Hallo" "Hallo" "covost_en_de_dev" "a0.wav";
                    mk_result "ni hao" "ni hao" "covost_en_zh_dev" "b0.wav";
                    mk_result "Welt" "Erde" "covost_en_de_dev" "a1.wav";
                    mk_result "Danke" "Danke" "covost_en_de_dev" "a2.wav"])
      as (_ & _ & _ & _ & Hmap).
    + intros s Hs. cbn in Hs.
      destruct Hs as [<-|[<-|[<-|[<-|[]]]]]; vm_compute; lia.
    + exact Hmap.
Defined.

(* ===================================================================== *)
(** ** Tags without a language segment *)
(* ===================================================================== *)

(** A tag without separator has one segment only: the lookup of the
    second-to-last segment raises [IndexError], and the coordinator, the
    results file written, ends with this exception and prints no line for
    the group. *)
Lemma scorer_aborts_on_plain_tag :
  Py.split "_"%char "covost" = ["covost"] /\
  tokenize_of "covost" = Raise IndexError /\
  coordinator Sample.corpus_bleu "en_de" "241103121000"
              Sample.world_plain_tag (mk_output [] [])
  = (mk_output
       [("en_de_241103121000.json",
         [mk_result "Hallo" "hyp-a0" "covost" "a0.wav";
          mk_result "Welt" "hyp-a1" "covost" "a1.wav"])]
       [Evaluating "en_de"],
     Raise IndexError).
Proof.
  repeat split; vm_compute; reflexivity.
Qed.

(** C7, as the code has it. For every tag with at least one separator the
    scorer raises nothing: the tokenizer is chosen by the second-to-last
    segment, every segment other than [ja] and [zh] gets the default
    [13a], and the group is scored and its line printed. *)
Theorem tokenizer_default_for_unknown_code (Score : Type)
    (corpus_bleu : list string -> list (list string) -> string -> Score)
    (source : string) (results_list : list ResultRec)
    (Hsep : (1 <= Py.count "_"%char source)%nat) :
  exists code,
    Py.getitem (Py.split "_"%char source) (-2) = Return code /\
    tokenize_of source = Return (policy_table code) /\
    (code <> "ja" -> code <> "zh" -> tokenize_of source = Return "13a") /\
    score_group corpus_bleu source results_list
    = Return (GroupLine source (Py.len results_list)
                (corpus_bleu (map r_response results_list)
                             [map r_gt results_list] (policy_table code))).
Proof.
  destruct (last_two (Py.split "_"%char source)) as (pre & code & b & Hs).
  { rewrite split_length. lia. }
  exists code. pose proof (tokenize_of_segments _ _ _ _ Hs) as Htok.
  split; [rewrite Hs; apply getitem_penultimate|].
  split; [exact Htok|]. split.
  - intros Hja Hzh. rewrite Htok. unfold policy_table.
    destruct (String.eqb_spec code "ja"); [contradiction|].
    destruct (String.eqb_spec code "zh"); [contradiction|reflexivity].
  - rewrite score_group_spec, Htok. reflexivity.
Qed.

Lemma tokenizer_default_for_unknown_code_witness :
  exists code,
    Py.getitem (Py.split "_"%char "covost_en_fr_dev") (-2) = Return code /\
    tokenize_of "covost_en_fr_dev" = Return (policy_table code) /\
    (code <> "ja" -> code <> "zh" ->
     tokenize_of "covost_en_fr_dev" = Return "13a") /\
    score_group Sample.corpus_bleu "covost_en_fr_dev" []
    = Return (GroupLine "covost_en_fr_dev" (Py.len (@nil ResultRec))
                (Sample.corpus_bleu (map r_response []) [map r_gt []]
                                    (policy_table code))).
Proof.
  apply (tokenizer_default_for_unknown_code string Sample.corpus_bleu
           "covost_en_fr_dev" []).
  vm_compute. lia.
Defined.

(* ===================================================================== *)
(** ** More on the shard plan *)
(* ===================================================================== *)

Lemma mapM_map {A B : Type} (f : A -> result B) (g : A -> B) (l : list A) :
  (forall a, In a l -> f a = Return (g a)) ->
  mapM f l = Return (map g l).
Proof.
  induction l as [|a l IH]; intros Hf; simpl.
  - reflexivity.
  - rewrite (Hf a (or_introl eq_refl)), IH; [reflexivity|].
    intros a' Ha'. apply Hf. now right.
Qed.

Lemma of_nat_seq_shift (n m : nat) :
  map Z.of_nat (seq n m) = map (fun k => Z.of_nat n + Z.of_nat k) (seq 0 m).
Proof.
  induction m as [|m IH].
  - reflexivity.
  - rewrite !seq_S, !map_app, IH. simpl. f_equal. f_equal. lia.
Qed.

(** [range(c)] is [range(a)] followed by [range(a, c)]. *)
Lemma range_list_split (a c : Z) :
  0 <= a <= c ->
  Py.range_list c = Py.range_list a ++ Py.range_elems (Py.mk_range a c).
Proof.
  intros Hac. unfold Py.range_list, Py.range_elems. cbn [Py.start Py.stop].
  replace (Z.to_nat c) with (Z.to_nat a + Z.to_nat (c - a))%nat by lia.
  rewrite seq_app, map_app. f_equal.
  rewrite Nat.add_0_l, of_nat_seq_shift.
  apply map_ext. intros k. lia.
Qed.

(** The ranges of the ranks below [k], one after the other, are the
    indices below the begin of rank [k]. *)
Lemma ranges_chain_below (q m : Z) (k : nat) :
  0 <= q -> 0 <= m ->
  List.concat
    (map (fun r => Py.range_elems
                     (Py.mk_range (r * q + Z.min r m)
                                  ((r + 1) * q + Z.min (r + 1) m)))
         (map Z.of_nat (seq 0 k)))
  = Py.range_list (Z.of_nat k * q + Z.min (Z.of_nat k) m).
Proof.
  intros Hq Hm. induction k as [|k IH].
  - cbn [seq map List.concat].
    replace (Z.of_nat 0 * q + Z.min (Z.of_nat 0) m) with 0 by lia.
    reflexivity.
  - rewrite seq_S, !map_app, concat_app, IH. cbn [map List.concat Nat.add].
    rewrite app_nil_r, Nat2Z.inj_succ.
    replace (Z.succ (Z.of_nat k)) with (Z.of_nat k + 1) by lia.
    symmetry. apply range_list_split.
    pose proof (begin_mono q m 0 (Z.of_nat k) Hq ltac:(lia)).
    pose proof (begin_mono q m (Z.of_nat k) (Z.of_nat k + 1) Hq ltac:(lia)).
    lia.
Qed.

(** X1. For N > 0 and W > 0 the index ranges of the ranks 0 .. W-1, taken
    in rank order one after the other, are exactly 0, 1, ..., N-1 in
    ascending order: the shards are adjacent, start at 0 and end at N. *)
Theorem sampler_ranges_chain (N W : Z) (HN : 0 < N) (HW : 0 < W) :
  exists rgs,
    mapM (InferenceSampler._get_local_indices N W) (Py.range_list W)
    = Return rgs /\
    List.concat (map Py.range_elems rgs) = Py.range_list N.
Proof.
  pose proof (Z.mod_pos_bound N W HW) as Hm.
  pose proof (Z.div_mod N W ltac:(lia)) as Hd.
  assert (Hq : 0 <= N / W) by (apply Z.div_pos; lia).
  eexists. split.
  - apply mapM_map with
      (g := fun r => Py.mk_range (r * (N / W) + Z.min r (N mod W))
                       ((r + 1) * (N / W) + Z.min (r + 1) (N mod W))).
    intros r Hr. apply range_list_In in Hr.
    now apply get_local_indices_closed.
  - rewrite map_map. unfold Py.range_list at 1.
    rewrite (ranges_chain_below (N / W) (N mod W) (Z.to_nat W)) by lia.
    f_equal. rewrite Z2Nat.id by lia. lia.
Qed.

Lemma sampler_ranges_chain_witness :
  exists rgs,
    mapM (InferenceSampler._get_local_indices 7 3) (Py.range_list 3)
    = Return rgs /\
    List.concat (map Py.range_elems rgs) = Py.range_list 7.
Proof.
  apply (sampler_ranges_chain 7 3); lia.
Defined.

Lemma range_elems_nth_error (rg : Py.range) (j : nat) :
  Z.of_nat j < Py.stop rg - Py.start rg ->
  nth_error (Py.range_elems rg) j = Some (Py.start rg + Z.of_nat j).
Proof.
  intros Hj. unfold Py.range_elems.
  rewrite nth_error_map, nth_error_seq.
  destruct (Nat.ltb_spec j (Z.to_nat (Py.stop rg - Py.start rg))); [|lia].
  reflexivity.
Qed.

Lemma range_elems_length (rg : Py.range) :
  Py.len (Py.range_elems rg) = Py.range_len rg.
Proof.
  unfold Py.len, Py.range_elems, Py.range_len.
  rewrite length_map, length_seq. lia.
Qed.

(** X2. A sampler built for rank r of W over N > 0 items reports as its
    length the number of indices it yields, which is the planned size of
    the rank; it yields consecutive indices, in ascending order, from the
    planned begin of the rank; and a higher rank never gets more indices
    than a lower one. *)
Theorem sampler_len_and_order (N W r : Z) (s : InferenceSampler.t)
    (HN : 0 < N) (HW : 0 < W) (Hr : 0 <= r < W)
    (Hs : InferenceSampler.__init__ N W r = Return s) :
  InferenceSampler.__len__ s = Py.len (InferenceSampler.__iter__ s) /\
  InferenceSampler.__len__ s = plan_size N W r /\
  (forall j : nat,
     Z.of_nat j < InferenceSampler.__len__ s ->
     nth_error (InferenceSampler.__iter__ s) j
     = Some (plan_begin N W r + Z.of_nat j)) /\
  (forall r' s',
     r <= r' < W -> InferenceSampler.__init__ N W r' = Return s' ->
     InferenceSampler.__len__ s' <= InferenceSampler.__len__ s).
Proof.
  pose proof (Z.mod_pos_bound N W HW) as Hm.
  assert (Hq : 0 <= N / W) by (apply Z.div_pos; lia).
  assert (Hinit : forall r1 s1, 0 <= r1 < W ->
            InferenceSampler.__init__ N W r1 = Return s1 ->
            InferenceSampler._local_indices s1
            = Py.mk_range (r1 * (N / W) + Z.min r1 (N mod W))
                          ((r1 + 1) * (N / W) + Z.min (r1 + 1) (N mod W))).
  { intros r1 s1 Hr1. unfold InferenceSampler.__init__.
    destruct (Z.gtb_spec N 0); [|lia].
    rewrite get_local_indices_closed by lia. cbn [bind].
    intros [= <-]. reflexivity. }
  assert (Hlen : forall r1 s1, 0 <= r1 < W ->
            InferenceSampler.__init__ N W r1 = Return s1 ->
            InferenceSampler.__len__ s1 = plan_size N W r1).
  { intros r1 s1 Hr1 Hs1. unfold InferenceSampler.__len__, Py.range_len.
    rewrite (Hinit r1 s1 Hr1 Hs1). cbn [Py.start Py.stop].
    unfold plan_size. destruct (Z.ltb_spec r1 (N mod W)); lia. }
  split; [|split; [|split]].
  - unfold InferenceSampler.__iter__, InferenceSampler.__len__.
    now rewrite range_elems_length.
  - now apply Hlen.
  - intros j Hj. unfold InferenceSampler.__iter__, InferenceSampler.__len__,
      Py.range_len in *.
    rewrite (Hinit r s Hr Hs) in *. cbn [Py.start Py.stop] in Hj.
    rewrite range_elems_nth_error by (cbn [Py.start Py.stop]; lia).
    cbn [Py.start]. now rewrite plan_begin_closed by lia.
  - intros r' s' Hr' Hs'.
    rewrite (Hlen r s Hr Hs), (Hlen r' s') by (lia || exact Hs').
    unfold plan_size.
    destruct (Z.ltb_spec r (N mod W)), (Z.ltb_spec r' (N mod W)); lia.
Qed.

Lemma sampler_len_and_order_witness :
  InferenceSampler.__len__
    (InferenceSampler.mk 10 1 3 (Py.mk_range 4 7))
  = plan_size 10 3 1.
Proof.
  apply (sampler_len_and_order 10 3 1
           (InferenceSampler.mk 10 1 3 (Py.mk_range 4 7)));
    [lia|lia|lia|reflexivity].
Defined.

Lemma slice_to_shard_sizes_all (b l w k : Z) :
  0 <= l -> 0 <= w <= k ->
  Py.sum (Py.slice_to (InferenceSampler.shard_sizes b l w) k)
  = w * b + Z.min w l.
Proof.
  intros Hl Hk. unfold Py.slice_to.
  destruct (Z.ltb_spec k 0); [lia|].
  rewrite firstn_all2 by (rewrite len_shard_sizes; lia).
  rewrite <- (firstn_all (InferenceSampler.shard_sizes b l w)).
  rewrite len_shard_sizes, firstn_shard_sizes by lia.
  rewrite sum_sizes_below by exact Hl.
  now rewrite Z2Nat.id by lia.
Qed.

(** X3. For N > 0, W > 0 and any rank r >= 0 the sum of the first r+1
    shard sizes is at most N, so the [min(..., total_size)] that guards the
    end of the range never cuts anything; and for a rank at or beyond the
    world size the range is the empty [range(N, N)]. *)
Theorem sampler_clamp_never_cuts (N W r : Z)
    (HN : 0 < N) (HW : 0 < W) (Hr : 0 <= r) :
  Py.sum (Py.slice_to (InferenceSampler.shard_sizes (N / W) (N mod W) W)
                      (r + 1)) <= N /\
  (W <= r ->
   InferenceSampler._get_local_indices N W r = Return (Py.mk_range N N)).
Proof.
  pose proof (Z.mod_pos_bound N W HW) as Hm.
  pose proof (Z.div_mod N W ltac:(lia)) as Hd.
  assert (Hq : 0 <= N / W) by (apply Z.div_pos; lia).
  split.
  - destruct (Z_lt_le_dec r W) as [Hlt|Hge].
    + rewrite slice_to_shard_sizes by lia.
      pose proof (begin_mono (N / W) (N mod W) (r + 1) W Hq ltac:(lia)).
      lia.
    + rewrite slice_to_shard_sizes_all by lia. lia.
  - intros Hge. unfold InferenceSampler._get_local_indices,
      Py.floordiv, Py.mod_.
    destruct (Z.eqb_spec W 0); [lia|]. cbn [bind].
    rewrite !slice_to_shard_sizes_all by lia.
    f_equal. f_equal; lia.
Qed.

Lemma sampler_clamp_never_cuts_witness :
  InferenceSampler._get_local_indices 10 3 5 = Return (Py.mk_range 10 10).
Proof.
  apply (sampler_clamp_never_cuts 10 3 5); lia.
Defined.

(** X4. With more ranks than items (0 < N < W) each of the first N ranks
    gets exactly one index, its own rank, and every rank from N on gets
    the empty range and yields nothing. *)
Theorem sampler_more_ranks_than_items (N W r : Z)
    (HN : 0 < N) (HNW : N < W) (Hr : 0 <= r < W) :
  (r < N ->
   InferenceSampler._get_local_indices N W r = Return (Py.mk_range r (r + 1))
   /\ Py.range_elems (Py.mk_range r (r + 1)) = [r]) /\
  (N <= r ->
   InferenceSampler._get_local_indices N W r = Return (Py.mk_range N N)
   /\ Py.range_elems (Py.mk_range N N) = []).
Proof.
  rewrite get_local_indices_closed by lia.
  rewrite Z.div_small, Z.mod_small by lia.
  split; intros Hc; split.
  - f_equal. f_equal; lia.
  - unfold Py.range_elems. cbn [Py.start Py.stop].
    replace (r + 1 - r) with 1 by lia.
    change (Z.to_nat 1) with 1%nat. cbn [seq map].
    now rewrite Z.add_0_r.
  - f_equal. f_equal; lia.
  - unfold Py.range_elems. cbn [Py.start Py.stop].
    now rewrite Z.sub_diag.
Qed.

Lemma sampler_more_ranks_than_items_witness :
  InferenceSampler._get_local_indices 2 5 1 = Return (Py.mk_range 1 2) /\
  InferenceSampler._get_local_indices 2 5 3 = Return (Py.mk_range 2 2).
Proof.
  split.
  - apply (sampler_more_ranks_than_items 2 5 1); lia.
  - apply (sampler_more_ranks_than_items 2 5 3); lia.
Defined.

(* ===================================================================== *)
(** ** More on the dataset *)
(* ===================================================================== *)

(** X5. [__getitem__] serves every index of the underlying rows, also the
    ones at or beyond the truncated length: for 0 <= idx < len(ds) it
    returns the row's audio, rate, path and translation with the prompt and
    the source of the dataset; a negative index down to -len(ds) counts
    from the end; any other index raises [IndexError]. *)
Theorem dataset_getitem_bounds (Audio : Type)
    (self : AudioDatasetModified.t Audio) (idx : Z) :
  let rows := AudioDatasetModified.ds self in
  (0 <= idx < Py.len rows ->
   exists row,
     nth_error rows (Z.to_nat idx) = Some row /\
     AudioDatasetModified.__getitem__ self idx
     = Return (mk_item (row_audio_array row) (row_sampling_rate row)
                       (AudioDatasetModified.prompt self)
                       (AudioDatasetModified.source self)
                       (row_audio_path row) (row_translation row))) /\
  (AudioDatasetModified.__len__ self <= idx < Py.len rows -> 0 <= idx ->
   raises (AudioDatasetModified.__getitem__ self idx) = false) /\
  (- Py.len rows <= idx < 0 ->
   AudioDatasetModified.__getitem__ self idx
   = AudioDatasetModified.__getitem__ self (idx + Py.len rows)) /\
  (idx < - Py.len rows \/ Py.len rows <= idx ->
   AudioDatasetModified.__getitem__ self idx = Raise IndexError).
Proof.
  cbv zeta. unfold AudioDatasetModified.__getitem__, Py.getitem.
  set (rows := AudioDatasetModified.ds self).
  assert (Hin : forall i, 0 <= i < Py.len rows ->
            exists row, nth_error rows (Z.to_nat i) = Some row).
  { intros i Hi. destruct (nth_error rows (Z.to_nat i)) as [row|] eqn:Hn.
    - now exists row.
    - apply nth_error_None in Hn. unfold Py.len in Hi. lia. }
  split; [|split; [|split]].
  - intros Hi. destruct (Hin idx Hi) as [row Hrow]. exists row.
    split; [exact Hrow|].
    destruct (Z.ltb_spec idx 0); [lia|].
    destruct (Z.ltb_spec idx 0); [lia|].
    rewrite Hrow. reflexivity.
  - intros Hi H0. destruct (Hin idx ltac:(lia)) as [row Hrow].
    destruct (Z.ltb_spec idx 0); [lia|].
    destruct (Z.ltb_spec idx 0); [lia|].
    rewrite Hrow. reflexivity.
  - intros Hi.
    destruct (Z.ltb_spec idx 0); [|lia].
    destruct (Z.ltb_spec (idx + Py.len rows) 0); [lia|].
    replace (Py.len rows + idx) with (idx + Py.len rows) by lia.
    destruct (Z.ltb_spec (idx + Py.len rows) 0); [lia|reflexivity].
  - intros [Hi|Hi].
    + destruct (Z.ltb_spec idx 0); [|unfold Py.len in *; lia].
      destruct (Z.ltb_spec (Py.len rows + idx) 0); [reflexivity|lia].
    + destruct (Z.ltb_spec idx 0); [unfold Py.len in *; lia|].
      destruct (Z.ltb_spec idx 0); [lia|].
      destruct (nth_error rows (Z.to_nat idx)) eqn:Hn; [|reflexivity].
      assert (nth_error rows (Z.to_nat idx) <> None) as Hs by congruence.
      apply nth_error_Some in Hs. unfold Py.len in Hi. lia.
Qed.

Lemma dataset_getitem_bounds_witness :
  raises (AudioDatasetModified.__getitem__
            (AudioDatasetModified.mk Sample.rows
               AudioDatasetModified.prompt_en_de "covost_en_de_dev" 1) 2)
  = false /\
  AudioDatasetModified.__getitem__
    (AudioDatasetModified.mk Sample.rows
       AudioDatasetModified.prompt_en_de "covost_en_de_dev" 1) 3
  = Raise IndexError.
Proof.
  pose (self := AudioDatasetModified.mk Sample.rows
                  AudioDatasetModified.prompt_en_de "covost_en_de_dev" 1).
  destruct (dataset_getitem_bounds string self 2) as (_ & H2 & _).
  destruct (dataset_getitem_bounds string self 3) as (_ & _ & _ & H3).
  split.
  - apply H2; [vm_compute; split; congruence|lia].
  - apply H3. right. vm_compute. congruence.
Defined.

(** X6. A dataset is built only for the names [en_de] and [en_zh]: when
    the constructor returns, the name is one of the two; any other name
    raises [NotImplementedError], and the run then ends with it and writes
    nothing.  The source tag of a dataset that was built always has a
    tokenizer: [13a] for [en_de], [zh] for [en_zh]. *)
Theorem dataset_names (Audio Inputs Score : Type)
    (load_dataset : string -> string -> string -> list (Row Audio))
    (processor : list string -> list Audio -> Inputs)
    (infer : Inputs -> list string)
    (corpus_bleu : list string -> list (list string) -> string -> Score)
    (dname split : string) (limit : Z) :
  (raises (AudioDatasetModified.__init__ load_dataset dname split limit)
   = false -> dname = "en_de" \/ dname = "en_zh") /\
  (forall self,
     AudioDatasetModified.__init__ load_dataset dname split limit
     = Return self ->
     AudioDatasetModified.limit self = limit /\
     ((dname = "en_de" /\
       AudioDatasetModified.ds self
       = load_dataset "fixie-ai/covost2" "en_de" split /\
       tokenize_of (AudioDatasetModified.source self) = Return "13a") \/
      (dname = "en_zh" /\
       AudioDatasetModified.ds self
       = load_dataset "fixie-ai/covost2" "en_zh-CN" split /\
       tokenize_of (AudioDatasetModified.source self) = Return "zh"))) /\
  (dname <> "en_de" -> dname <> "en_zh" ->
   AudioDatasetModified.__init__ load_dataset dname split limit
   = Raise NotImplementedError /\
   forall batch_size W time_prefix, 0 < W ->
     run load_dataset processor infer corpus_bleu dname split batch_size
         limit W time_prefix
     = (mk_output [] [], Raise NotImplementedError)).
Proof.
  unfold AudioDatasetModified.__init__.
  destruct (String.eqb_spec dname "en_de") as [Hde|Hde];
    [|destruct (String.eqb_spec dname "en_zh") as [Hzh|Hzh]].
  - split; [|split].
    + intros _. now left.
    + intros self [= <-]. split; [reflexivity|]. left. now repeat split.
    + intros H; contradiction.
  - split; [|split].
    + intros _. now right.
    + intros self [= <-]. split; [reflexivity|]. right. now repeat split.
    + intros _ H; contradiction.
  - split; [|split].
    + cbn. discriminate.
    + intros self [=].
    + intros _ _. split; [reflexivity|].
      intros batch_size W time_prefix HW. unfold run, Py.range_list.
      destruct (Z.to_nat W) as [|n] eqn:HWn; [lia|]. cbn [seq map].
      rewrite (mapM_raise_head _ _ _ NotImplementedError); [reflexivity|].
      unfold worker, AudioDatasetModified.__init__.
      destruct (String.eqb_spec dname "en_de"); [contradiction|].
      destruct (String.eqb_spec dname "en_zh"); [contradiction|].
      reflexivity.
Qed.

Lemma dataset_names_witness :
  AudioDatasetModified.__init__ Sample.load_dataset "en_fr" "test" 0
  = Raise NotImplementedError /\
  run Sample.load_dataset Sample.processor Sample.infer_all
      Sample.corpus_bleu "en_fr" "test" 4 0 2 "241103140000"
  = (mk_output [] [], Raise NotImplementedError) /\
  AudioDatasetModified.limit
    (AudioDatasetModified.mk Sample.rows AudioDatasetModified.prompt_en_zh
       "covost_en_zh_dev" 5) = 5.
Proof.
  destruct (dataset_names string (list string) string Sample.load_dataset
              Sample.processor Sample.infer_all Sample.corpus_bleu
              "en_fr" "test" 0) as (_ & _ & H).
  destruct H as [Hinit Hrun]; [discriminate|discriminate|].
  split; [exact Hinit|]. split; [apply Hrun; lia|].
  destruct (dataset_names string (list string) string Sample.load_dataset
              Sample.processor Sample.infer_all Sample.corpus_bleu
              "en_zh" "test" 5) as (Hname & Hbuilt & _).
  destruct (Hname eq_refl) as [Hde|Hzh]; [discriminate|].
  exact (proj1 (Hbuilt _ eq_refl)).
Defined.

(* ===================================================================== *)
(** ** The batches of a rank *)
(* ===================================================================== *)

Lemma batch_sampler_concat (batch_size : Z) (batch indices : list Z) :
  List.concat (batch_sampler batch_size batch indices) = batch ++ indices.
Proof.
  revert batch. induction indices as [|idx rest IH]; intros batch; simpl.
  - destruct batch as [|i batch]; simpl; [reflexivity|].
    unfold Py.len. simpl.
    destruct (Z.ltb_spec 0 (Z.pos (Pos.of_succ_nat (List.length batch))));
      [|lia].
    simpl. now rewrite !app_nil_r.
  - destruct (Py.len (batch ++ [idx]) =? batch_size); simpl.
    + rewrite IH. simpl. now rewrite <- app_assoc.
    + rewrite IH. now rewrite <- app_assoc.
Qed.

Lemma batch_sampler_sizes (batch_size : Z) (batch indices : list Z) :
  0 < batch_size -> Py.len batch < batch_size ->
  Forall (fun b => 0 < Py.len b <= batch_size)
         (batch_sampler batch_size batch indices).
Proof.
  intros Hbs. revert batch.
  induction indices as [|idx rest IH]; intros batch Hb; simpl.
  - destruct (Z.ltb_spec 0 (Py.len batch)); repeat constructor; lia.
  - assert (Hlen : Py.len (batch ++ [idx]) = Py.len batch + 1).
    { unfold Py.len. rewrite length_app. simpl. lia. }
    destruct (Z.eqb_spec (Py.len (batch ++ [idx])) batch_size).
    + constructor; [lia|]. apply IH. unfold Py.len. simpl. lia.
    + apply IH. lia.
Qed.

Lemma batch_sampler_full (batch_size : Z) (batch indices : list Z)
    (front : list (list Z)) (last : list Z) :
  0 < batch_size -> Py.len batch < batch_size ->
  batch_sampler batch_size batch indices = front ++ [last] ->
  Forall (fun b => Py.len b = batch_size) front.
Proof.
  intros Hbs. revert batch front.
  induction indices as [|idx rest IH]; intros batch front Hb; simpl.
  - destruct (0 <? Py.len batch).
    + destruct front as [|f [|f' front]]; simpl; intros [=].
      constructor.
    + destruct front; discriminate.
  - assert (Hlen : Py.len (batch ++ [idx]) = Py.len batch + 1).
    { unfold Py.len. rewrite length_app. simpl. lia. }
    destruct (Z.eqb_spec (Py.len (batch ++ [idx])) batch_size) as [He|Hne].
    + destruct front as [|f front]; simpl.
      * intros _. constructor.
      * intros [= <- Hrest]. constructor; [exact He|].
        apply (IH [] front); [unfold Py.len; simpl; lia|exact Hrest].
    + apply IH. lia.
Qed.

Section Loader.

Variables Audio Inputs : Type.
Variable processor : list string -> list Audio -> Inputs.
Variable infer : Inputs -> list string.

Lemma rows_at_app (rows : list (Row Audio)) (l1 l2 : list Z) :
  rows_at rows (l1 ++ l2) = rows_at rows l1 ++ rows_at rows l2.
Proof.
  unfold rows_at. apply flat_map_app.
Qed.

Lemma rows_at_concat (rows : list (Row Audio)) (ls : list (list Z)) :
  rows_at rows (List.concat ls) = List.concat (map (rows_at rows) ls).
Proof.
  induction ls as [|l ls IH]; simpl; [reflexivity|].
  now rewrite rows_at_app, IH.
Qed.

Lemma rows_at_length (rows : list (Row Audio)) (idxs : list Z) :
  (forall i, In i idxs -> 0 <= i < Py.len rows) ->
  List.length (rows_at rows idxs) = List.length idxs.
Proof.
  induction idxs as [|i idxs IH]; intros Hin; simpl; [reflexivity|].
  destruct (nth_error rows (Z.to_nat i)) eqn:Hn.
  - simpl. f_equal. apply IH. intros j Hj. apply Hin. now right.
  - apply nth_error_None in Hn.
    specialize (Hin i (or_introl eq_refl)). unfold Py.len in Hin. lia.
Qed.

Lemma firstn_succ_nth (rows : list (Row Audio)) (k : nat) (row : Row Audio) :
  nth_error rows k = Some row ->
  firstn (S k) rows = firstn k rows ++ [row].
Proof.
  revert k. induction rows as [|r0 rows IH]; intros k Hk.
  - destruct k; discriminate.
  - destruct k as [|k]; simpl in *.
    + now injection Hk as ->.
    + f_equal. now apply IH.
Qed.

(** The rows at 0, 1, ..., n-1 are the first [n] rows. *)
Lemma rows_at_range (rows : list (Row Audio)) (n : nat) :
  (n <= List.length rows)%nat ->
  rows_at rows (map Z.of_nat (seq 0 n)) = firstn n rows.
Proof.
  induction n as [|n IH]; intros Hn.
  - reflexivity.
  - rewrite seq_S, map_app, rows_at_app, IH by lia.
    cbn [Nat.add map rows_at flat_map]. rewrite Nat2Z.id, app_nil_r.
    destruct (nth_error rows n) as [row|] eqn:Hrow.
    + now rewrite (firstn_succ_nth rows n row Hrow).
    + apply nth_error_None in Hrow. lia.
Qed.

(** Fetching indices of the rows gives the items of the rows at them. *)
Lemma getitem_rows (self : AudioDatasetModified.t Audio) (idxs : list Z) :
  (forall i, In i idxs -> 0 <= i < Py.len (AudioDatasetModified.ds self)) ->
  mapM (AudioDatasetModified.__getitem__ self) idxs
  = Return (map (item_of_row self)
                (rows_at (AudioDatasetModified.ds self) idxs)).
Proof.
  induction idxs as [|i idxs IH]; intros Hin; simpl.
  - reflexivity.
  - rewrite IH by (intros j Hj; apply Hin; now right).
    specialize (Hin i (or_introl eq_refl)).
    unfold AudioDatasetModified.__getitem__, Py.getitem.
    destruct (Z.ltb_spec i 0); [lia|]. destruct (Z.ltb_spec i 0); [lia|].
    destruct (nth_error (AudioDatasetModified.ds self) (Z.to_nat i))
      as [row|] eqn:Hn.
    + reflexivity.
    + apply nth_error_None in Hn. unfold Py.len in Hin. lia.
Qed.

(** The batches of the loader, written out. *)
Lemma data_loader_spec (self : AudioDatasetModified.t Audio)
    (sampler : InferenceSampler.t) (batch_size : Z) :
  0 < batch_size ->
  (forall i, In i (InferenceSampler.__iter__ sampler) ->
             0 <= i < Py.len (AudioDatasetModified.ds self)) ->
  data_loader processor self sampler batch_size
  = Return
      (map (fun idxs =>
              collate_fn_modified processor
                (map (item_of_row self)
                     (rows_at (AudioDatasetModified.ds self) idxs)))
           (batch_sampler batch_size [] (InferenceSampler.__iter__ sampler))).
Proof.
  intros Hbs Hidx. unfold data_loader.
  destruct (Z.leb_spec batch_size 0); [lia|].
  apply mapM_map. intros idxs Hin.
  rewrite getitem_rows; [reflexivity|].
  intros i Hi. apply Hidx.
  destruct (batch_sampler_elems _ _ _ _ _ Hin Hi) as [[]|H0]. exact H0.
Qed.

Lemma concat_map_map {A B C : Type} (f : B -> C) (g : A -> list B)
    (l : list A) :
  List.concat (map (fun a => map f (g a)) l)
  = map f (List.concat (map g l)).
Proof.
  induction l as [|a l IH]; simpl; [reflexivity|].
  now rewrite IH, map_app.
Qed.

End Loader.

Section LoaderLists.

Variables Audio Inputs : Type.
Variable processor : list string -> list Audio -> Inputs.
Variable infer : Inputs -> list string.
Variable self : AudioDatasetModified.t Audio.

Let rows := AudioDatasetModified.ds self.

(** The batch the loader makes of a list of indices. *)
Let batch_of (idxs : list Z) : Batch Inputs :=
  collate_fn_modified processor (map (item_of_row self) (rows_at rows idxs)).

Lemma batch_of_gt (idxs : list Z) :
  batch_gt (batch_of idxs) = map row_translation (rows_at rows idxs).
Proof.
  unfold batch_of, collate_fn_modified. cbn [batch_gt].
  now rewrite map_map.
Qed.

Lemma batch_of_source (idxs : list Z) :
  batch_source (batch_of idxs)
  = map (fun _ => AudioDatasetModified.source self) (rows_at rows idxs).
Proof.
  unfold batch_of, collate_fn_modified. cbn [batch_source].
  now rewrite map_map.
Qed.

Lemma batch_of_audio_path (idxs : list Z) :
  batch_audio_path (batch_of idxs) = map row_audio_path (rows_at rows idxs).
Proof.
  unfold batch_of, collate_fn_modified. cbn [batch_audio_path].
  now rewrite map_map.
Qed.

Lemma batch_of_infer_length (idxs : list Z) :
  keeps_length processor infer ->
  List.length (infer (batch_inputs (batch_of idxs)))
  = List.length (rows_at rows idxs).
Proof.
  intros Hk. unfold batch_of, collate_fn_modified. cbn [batch_inputs].
  rewrite Hk; now rewrite !length_map.
Qed.

(** What batches made of the index lists [bss] add up to. *)
Lemma batches_concat (bss : list (list Z)) :
  let batches := map batch_of bss in
  List.concat (map batch_gt batches)
  = map row_translation (rows_at rows (List.concat bss)) /\
  List.concat (map batch_source batches)
  = map (fun _ => AudioDatasetModified.source self)
        (rows_at rows (List.concat bss)) /\
  List.concat (map batch_audio_path batches)
  = map row_audio_path (rows_at rows (List.concat bss)) /\
  (keeps_length processor infer ->
   List.length (List.concat (map (fun b => infer (batch_inputs b)) batches))
   = List.length (rows_at rows (List.concat bss))).
Proof.
  cbv zeta. rewrite rows_at_concat, !map_map.
  repeat split.
  - rewrite <- concat_map_map. f_equal. apply map_ext, batch_of_gt.
  - rewrite <- concat_map_map. f_equal. apply map_ext, batch_of_source.
  - rewrite <- concat_map_map. f_equal. apply map_ext, batch_of_audio_path.
  - intros Hk. induction bss as [|b bss' IH]; [reflexivity|].
    cbn [map List.concat].
    now rewrite !length_app, IH, batch_of_infer_length.
Qed.

(** What the batches of the indices [idxs] add up to. *)
Lemma batches_add_up (batch_size : Z) (idxs : list Z) :
  let batches := map batch_of (batch_sampler batch_size [] idxs) in
  List.concat (map batch_gt batches)
  = map row_translation (rows_at rows idxs) /\
  List.concat (map batch_source batches)
  = map (fun _ => AudioDatasetModified.source self) (rows_at rows idxs) /\
  List.concat (map batch_audio_path batches)
  = map row_audio_path (rows_at rows idxs) /\
  (keeps_length processor infer ->
   List.length (List.concat (map (fun b => infer (batch_inputs b)) batches))
   = List.length (rows_at rows idxs)).
Proof.
  pose proof (batches_concat (batch_sampler batch_size [] idxs)) as H.
  rewrite batch_sampler_concat in H. exact H.
Qed.

End LoaderLists.

(** X7. With a positive batch size and a sampler whose indices are rows
    of the dataset, the loader yields batches that are never empty and
    never longer than the batch size, whose three lists have the same
    length, and of which all but the last are full; the ground truths and
    the audio paths of the batches, one batch after the other, are those
    of the sampler's rows in the sampler's order. *)
Theorem data_loader_batches (Audio Inputs : Type)
    (processor : list string -> list Audio -> Inputs)
    (self : AudioDatasetModified.t Audio) (sampler : InferenceSampler.t)
    (batch_size : Z) (Hbs : 0 < batch_size)
    (Hidx : forall i, In i (InferenceSampler.__iter__ sampler) ->
                      0 <= i < Py.len (AudioDatasetModified.ds self)) :
  exists batches,
    data_loader processor self sampler batch_size = Return batches /\
    Forall (fun b => 0 < Py.len (batch_gt b) <= batch_size /\
                     Py.len (batch_source b) = Py.len (batch_gt b) /\
                     Py.len (batch_audio_path b) = Py.len (batch_gt b))
           batches /\
    (forall front last,
       batches = front ++ [last] ->
       Forall (fun b => Py.len (batch_gt b) = batch_size) front) /\
    List.concat (map batch_gt batches)
    = map row_translation
          (rows_at (AudioDatasetModified.ds self)
                   (InferenceSampler.__iter__ sampler)) /\
    List.concat (map batch_audio_path batches)
    = map row_audio_path
          (rows_at (AudioDatasetModified.ds self)
                   (InferenceSampler.__iter__ sampler)).
Proof.
  set (rows := AudioDatasetModified.ds self) in *.
  set (idxs := InferenceSampler.__iter__ sampler) in *.
  set (bss := batch_sampler batch_size [] idxs).
  assert (Hrange : forall b, In b bss ->
            forall i, In i b -> 0 <= i < Py.len rows).
  { intros b Hb i Hi. apply Hidx.
    destruct (batch_sampler_elems _ _ _ _ _ Hb Hi) as [[]|H0]. exact H0. }
  assert (Hlen : forall b, In b bss ->
            Py.len (map row_translation (rows_at rows b)) = Py.len b).
  { intros b Hb. unfold Py.len.
    rewrite length_map, (rows_at_length Audio rows b (Hrange b Hb)).
    reflexivity. }
  eexists. split; [apply data_loader_spec; assumption|].
  fold rows idxs bss.
  destruct (batches_add_up Audio Inputs processor (fun _ => []) self
              batch_size idxs) as (Hgt & _ & Hpath & _).
  fold rows bss in Hgt, Hpath.
  split; [|split; [|split; [exact Hgt|exact Hpath]]].
  - apply Forall_map, Forall_forall. intros b Hb.
    rewrite batch_of_gt, batch_of_source, batch_of_audio_path. fold rows.
    pose proof (batch_sampler_sizes batch_size [] idxs Hbs Hbs) as Hs.
    rewrite Forall_forall in Hs. specialize (Hs b Hb).
    pose proof (rows_at_length Audio rows b (Hrange b Hb)) as Hrows.
    unfold Py.len in *. rewrite !length_map.
    repeat split; lia.
  - intros front last Hsplit.
    apply map_eq_app in Hsplit as (l1 & l2 & Hbss & <- & Hl2).
    destruct l2 as [|x [|y l2]]; try discriminate.
    apply Forall_map, Forall_forall. intros b Hb.
    rewrite batch_of_gt. fold rows.
    pose proof (batch_sampler_full batch_size [] idxs l1 x Hbs Hbs Hbss)
      as Hfull.
    rewrite Forall_forall in Hfull.
    rewrite Hlen; [now apply Hfull|].
    assert (Hb' : In b (l1 ++ [x])) by (apply in_app_iff; now left).
    rewrite <- Hbss in Hb'. exact Hb'.
Qed.

Lemma data_loader_batches_witness :
  exists batches,
    data_loader Sample.processor
      (AudioDatasetModified.mk Sample.rows AudioDatasetModified.prompt_en_de
         "covost_en_de_dev" 0)
      (InferenceSampler.mk 3 0 1 (Py.mk_range 0 3)) 2
    = Return batches /\
    List.concat (map batch_gt batches) = ["Hallo"; "Welt"; "Danke"].
Proof.
  destruct (data_loader_batches string (list string) Sample.processor
              (AudioDatasetModified.mk Sample.rows
                 AudioDatasetModified.prompt_en_de "covost_en_de_dev" 0)
              (InferenceSampler.mk 3 0 1 (Py.mk_range 0 3)) 2)
    as (batches & Hret & _ & _ & Hgt & _).
  - lia.
  - intros i Hi. vm_compute in Hi.
    destruct Hi as [<-|[<-|[<-|[]]]]; vm_compute; split; congruence.
  - exists batches. split; [exact Hret|exact Hgt].
Defined.

(* ===================================================================== *)
(** ** What a rank collects, and the run from end to end *)
(* ===================================================================== *)

Lemma closed_size (N W r : Z) :
  0 < W -> 0 <= r ->
  (r + 1) * (N / W) + Z.min (r + 1) (N mod W)
  - (r * (N / W) + Z.min r (N mod W))
  = plan_size N W r.
Proof.
  intros HW Hr. pose proof (Z.mod_pos_bound N W HW).
  unfold plan_size. destruct (Z.ltb_spec r (N mod W)); lia.
Qed.

Lemma Forall2_map_eq {A B C : Type} (R : A -> B -> Prop)
    (g : B -> C) (h : A -> C) (l : list A) (l' : list B) :
  Forall2 R l l' ->
  (forall a b, In a l -> R a b -> g b = h a) ->
  map g l' = map h l.
Proof.
  induction 1 as [|a b l l' HR Hall IH]; intros Hgh; simpl.
  - reflexivity.
  - rewrite (Hgh a b (or_introl eq_refl) HR), IH; [reflexivity|].
    intros a' b' Ha'. apply Hgh. now right.
Qed.

Section RunOrder.

Variables Audio Inputs Score : Type.
Variable load_dataset : string -> string -> string -> list (Row Audio).
Variable processor : list string -> list Audio -> Inputs.
Variable infer : Inputs -> list string.
Variable corpus_bleu : list string -> list (list string) -> string -> Score.

Variables (dataset split : string) (batch_size limit W : Z).
Variable self : AudioDatasetModified.t Audio.

Hypothesis Hinit :
  AudioDatasetModified.__init__ load_dataset dataset split limit
  = Return self.
Hypothesis HN : 0 < AudioDatasetModified.__len__ self.
Hypothesis HW : 0 < W.
Hypothesis Hbs : 0 < batch_size.

Let N := AudioDatasetModified.__len__ self.
Let rows := AudioDatasetModified.ds self.

(** The range of rank [r], in closed form. *)
Let shard (r : Z) : Py.range :=
  Py.mk_range (r * (N / W) + Z.min r (N mod W))
              ((r + 1) * (N / W) + Z.min (r + 1) (N mod W)).

Lemma shard_in_rows (r i : Z) :
  0 <= r < W -> In i (Py.range_elems (shard r)) -> 0 <= i < Py.len rows.
Proof.
  intros Hr Hi. apply range_elems_In in Hi.
  destruct (local_indices_in_bounds N W r HN HW Hr) as [rg [Hrg Hb]].
  rewrite get_local_indices_closed in Hrg by assumption.
  injection Hrg as <-. pose proof (len_le_rows Audio self) as Hle.
  unfold Py.range_mem, shard, N, rows in *.
  cbn [Py.start Py.stop] in *. lia.
Qed.

(** What rank [r] returns: the ground truths, sources and audio paths of
    the rows of its shard, in order, and, when the generation keeps its
    contract, as many predictions. *)
Lemma worker_spec (r : Z) :
  0 <= r < W ->
  exists acc,
    worker load_dataset processor infer dataset split batch_size limit W r
    = Return acc /\
    gts acc = map row_translation (rows_at rows (Py.range_elems (shard r))) /\
    sources acc
    = map (fun _ => AudioDatasetModified.source self)
          (rows_at rows (Py.range_elems (shard r))) /\
    audio_paths acc
    = map row_audio_path (rows_at rows (Py.range_elems (shard r))) /\
    (keeps_length processor infer ->
     List.length (rets acc)
     = List.length (rows_at rows (Py.range_elems (shard r)))).
Proof.
  intros Hr. unfold worker. rewrite Hinit. cbn [bind].
  unfold InferenceSampler.__init__. fold N.
  destruct (Z.gtb_spec N 0); [|unfold N in *; lia].
  rewrite get_local_indices_closed by assumption. cbn [bind]. fold (shard r).
  rewrite data_loader_spec; [|exact Hbs|].
  - cbn [bind]. eexists. split; [reflexivity|].
    rewrite worker_loop_spec. cbn [gts sources rets audio_paths].
    unfold InferenceSampler.__iter__. cbn [InferenceSampler._local_indices].
    destruct (batches_add_up Audio Inputs processor infer self batch_size
                (Py.range_elems (shard r))) as (Hg & Hs & Hp & Hl).
    fold rows in Hg, Hs, Hp, Hl. auto.
  - intros i Hi. unfold InferenceSampler.__iter__ in Hi.
    cbn [InferenceSampler._local_indices] in Hi.
    now apply (shard_in_rows r).
Qed.

(** The rows of all the shards, in rank order, are the first [N] rows. *)
Lemma shards_rows :
  List.concat (map (fun r => rows_at rows (Py.range_elems (shard r)))
                   (Py.range_list W))
  = firstn (Z.to_nat N) rows.
Proof.
  pose proof (Z.mod_pos_bound N W HW) as Hm.
  pose proof (Z.div_mod N W ltac:(lia)) as Hd.
  assert (Hq : 0 <= N / W) by (apply Z.div_pos; lia).
  rewrite <- (map_map (fun r => Py.range_elems (shard r)) (rows_at rows)).
  rewrite <- rows_at_concat. unfold Py.range_list, shard.
  rewrite (ranges_chain_below (N / W) (N mod W) (Z.to_nat W)) by lia.
  rewrite Z2Nat.id by lia.
  replace (W * (N / W) + Z.min W (N mod W)) with N by lia.
  unfold Py.range_list. apply rows_at_range.
  pose proof (len_le_rows Audio self). fold N rows in H.
  unfold Py.len in H. lia.
Qed.

(** The merged lists of a run. *)
Lemma run_merged :
  exists world,
    mapM (worker load_dataset processor infer dataset split batch_size
                 limit W) (Py.range_list W)
    = Return world /\
    merged_gts world = map row_translation (firstn (Z.to_nat N) rows) /\
    merged_sources world
    = map (fun _ => AudioDatasetModified.source self)
          (firstn (Z.to_nat N) rows) /\
    merged_audio_paths world
    = map row_audio_path (firstn (Z.to_nat N) rows) /\
    (keeps_length processor infer ->
     List.length (merged_responses world)
     = List.length (firstn (Z.to_nat N) rows)).
Proof.
  destruct (mapM_total
              (worker load_dataset processor infer dataset split batch_size
                      limit W) (Py.range_list W)) as [world [Hworld Hall]].
  { intros r Hr. apply range_list_In in Hr.
    destruct (worker_spec r Hr) as [acc [Hacc _]]. now exists acc. }
  exists world. split; [exact Hworld|].
  assert (Hfield : forall (C : Type) (field : Acc -> list C)
                     (f : Row Audio -> C),
            (forall r acc, 0 <= r < W ->
               worker load_dataset processor infer dataset split batch_size
                      limit W r = Return acc ->
               field acc = map f (rows_at rows (Py.range_elems (shard r)))) ->
            List.concat (map field world)
            = map f (firstn (Z.to_nat N) rows)).
  { intros C field f Hf.
    rewrite (Forall2_map_eq _ field
               (fun r => map f (rows_at rows (Py.range_elems (shard r))))
               _ _ Hall).
    - now rewrite concat_map_map, shards_rows.
    - intros r acc Hr Hw. apply range_list_In in Hr. now apply Hf. }
  unfold merged_gts, merged_sources, merged_audio_paths, merged_responses.
  rewrite !chain_is_concat.
  split; [|split; [|split]].
  - apply Hfield. intros r acc Hr Hw.
    destruct (worker_spec r Hr) as (acc' & Hw' & Hg & _). congruence.
  - apply Hfield. intros r acc Hr Hw.
    destruct (worker_spec r Hr) as (acc' & Hw' & _ & Hs & _). congruence.
  - apply Hfield. intros r acc Hr Hw.
    destruct (worker_spec r Hr) as (acc' & Hw' & _ & _ & Hp & _). congruence.
  - intros Hk. rewrite <- shards_rows, !length_concat, !map_map.
    f_equal.
    apply (Forall2_map_eq _ (fun acc => List.length (rets acc))
             (fun r => List.length
                         (rows_at rows (Py.range_elems (shard r))))
             _ _ Hall).
    intros r acc Hr Hw. apply range_list_In in Hr.
    destruct (worker_spec r Hr) as (acc' & Hw' & _ & _ & _ & Hl).
    assert (acc' = acc) by congruence. subst acc'. now apply Hl.
Qed.

End RunOrder.

(** X8. On a dataset that is not empty, with a positive world size and
    batch size, rank r ends its loop holding the translations, the audio
    paths and the source tag of exactly the rows of its index range, in
    index order: as many as the plan gives the rank; and when the
    generation returns one string per row, it holds as many predictions. *)
Theorem worker_collects_its_shard (Audio Inputs : Type)
    (load_dataset : string -> string -> string -> list (Row Audio))
    (processor : list string -> list Audio -> Inputs)
    (infer : Inputs -> list string)
    (dataset split : string) (batch_size limit W r : Z)
    (self : AudioDatasetModified.t Audio)
    (Hinit : AudioDatasetModified.__init__ load_dataset dataset split limit
             = Return self)
    (HN : 0 < AudioDatasetModified.__len__ self)
    (HW : 0 < W) (Hbs : 0 < batch_size) (Hr : 0 <= r < W) :
  let N := AudioDatasetModified.__len__ self in
  let rows := AudioDatasetModified.ds self in
  exists acc rg,
    worker load_dataset processor infer dataset split batch_size limit W r
    = Return acc /\
    InferenceSampler._get_local_indices N W r = Return rg /\
    gts acc = map row_translation (rows_at rows (Py.range_elems rg)) /\
    audio_paths acc = map row_audio_path (rows_at rows (Py.range_elems rg)) /\
    sources acc
    = map (fun _ => AudioDatasetModified.source self)
          (rows_at rows (Py.range_elems rg)) /\
    Py.len (gts acc) = plan_size N W r /\
    (keeps_length processor infer -> Py.len (rets acc) = plan_size N W r).
Proof.
  cbv zeta.
  destruct (worker_spec Audio Inputs load_dataset processor infer dataset
              split batch_size limit W self Hinit HN HW Hbs r Hr)
    as (acc & Hw & Hg & Hs & Hp & Hl).
  eexists acc, _. split; [exact Hw|].
  split; [apply get_local_indices_closed; assumption|].
  split; [exact Hg|]. split; [exact Hp|]. split; [exact Hs|].
  assert (Hlen : Z.of_nat
            (List.length
               (rows_at (AudioDatasetModified.ds self)
                  (Py.range_elems
                     (Py.mk_range
                        (r * (AudioDatasetModified.__len__ self / W)
                         + Z.min r (AudioDatasetModified.__len__ self mod W))
                        ((r + 1) * (AudioDatasetModified.__len__ self / W)
                         + Z.min (r + 1)
                             (AudioDatasetModified.__len__ self mod W))))))
            = plan_size (AudioDatasetModified.__len__ self) W r).
  { rewrite rows_at_length.
    - pose proof (range_elems_length
                    (Py.mk_range
                       (r * (AudioDatasetModified.__len__ self / W)
                        + Z.min r (AudioDatasetModified.__len__ self mod W))
                       ((r + 1) * (AudioDatasetModified.__len__ self / W)
                        + Z.min (r + 1)
                            (AudioDatasetModified.__len__ self mod W))))
        as Hre.
      unfold Py.len, Py.range_len in Hre. cbn [Py.start Py.stop] in Hre.
      rewrite Hre, closed_size by lia.
      unfold plan_size.
      pose proof (Z.div_pos (AudioDatasetModified.__len__ self) W
                    ltac:(lia) HW).
      destruct (_ <? _); lia.
    - intros i Hi.
      apply (shard_in_rows Audio W self HN HW r i Hr Hi). }
  split.
  - unfold Py.len. rewrite Hg, length_map. exact Hlen.
  - intros Hk. unfold Py.len. rewrite (Hl Hk). exact Hlen.
Qed.

Lemma worker_collects_its_shard_witness :
  exists acc rg,
    worker Sample.load_dataset Sample.processor Sample.infer_all
           "en_de" "test" 2 0 2 1
    = Return acc /\
    InferenceSampler._get_local_indices 3 2 1 = Return rg /\
    gts acc = map row_translation (rows_at Sample.rows (Py.range_elems rg)) /\
    audio_paths acc
    = map row_audio_path (rows_at Sample.rows (Py.range_elems rg)) /\
    sources acc
    = map (fun _ => "covost_en_de_dev")
          (rows_at Sample.rows (Py.range_elems rg)) /\
    Py.len (gts acc) = plan_size 3 2 1 /\
    (keeps_length Sample.processor Sample.infer_all ->
     Py.len (rets acc) = plan_size 3 2 1).
Proof.
  apply (worker_collects_its_shard string (list string) Sample.load_dataset
           Sample.processor Sample.infer_all "en_de" "test" 2 0 2 1
           (AudioDatasetModified.mk Sample.rows
              AudioDatasetModified.prompt_en_de "covost_en_de_dev" 0));
    [reflexivity|vm_compute; reflexivity|lia|lia|lia].
Defined.

(** X9. On a dataset of N > 0 items (after the limit), with a positive
    world size and batch size, the merged ground truths, audio paths and
    sources are those of the first N rows of the dataset, in dataset order,
    however many ranks shared the work; and when the generation returns one
    string per row, there are N merged responses and the results list has
    exactly N records, the record k carrying the translation, the audio
    path and the source tag of row k. *)
Theorem run_results_in_dataset_order (Audio Inputs : Type)
    (load_dataset : string -> string -> string -> list (Row Audio))
    (processor : list string -> list Audio -> Inputs)
    (infer : Inputs -> list string)
    (dataset split : string) (batch_size limit W : Z)
    (self : AudioDatasetModified.t Audio)
    (Hinit : AudioDatasetModified.__init__ load_dataset dataset split limit
             = Return self)
    (HN : 0 < AudioDatasetModified.__len__ self)
    (HW : 0 < W) (Hbs : 0 < batch_size) :
  let N := AudioDatasetModified.__len__ self in
  let rows := AudioDatasetModified.ds self in
  exists world,
    mapM (worker load_dataset processor infer dataset split batch_size
                 limit W) (Py.range_list W)
    = Return world /\
    merged_gts world = map row_translation (firstn (Z.to_nat N) rows) /\
    merged_audio_paths world
    = map row_audio_path (firstn (Z.to_nat N) rows) /\
    merged_sources world
    = map (fun _ => AudioDatasetModified.source self)
          (firstn (Z.to_nat N) rows) /\
    Py.len (merged_gts world) = N /\
    (keeps_length processor infer ->
     Py.len (merged_responses world) = N /\
     Py.len (build_results world) = N /\
     forall k rec,
       nth_error (build_results world) k = Some rec ->
       exists row,
         nth_error rows k = Some row /\
         r_gt rec = row_translation row /\
         r_audio_path rec = row_audio_path row /\
         r_source rec = AudioDatasetModified.source self).
Proof.
  cbv zeta.
  destruct (run_merged Audio Inputs load_dataset processor infer dataset
              split batch_size limit W self Hinit HN HW Hbs)
    as (world & Hworld & Hg & Hs & Hp & Hl).
  pose proof (len_le_rows Audio self) as Hle.
  assert (Hfirst : List.length
            (firstn (Z.to_nat (AudioDatasetModified.__len__ self))
                    (AudioDatasetModified.ds self))
          = Z.to_nat (AudioDatasetModified.__len__ self)).
  { apply firstn_length_le. unfold Py.len in Hle. lia. }
  exists world. split; [exact Hworld|].
  split; [exact Hg|]. split; [exact Hp|]. split; [exact Hs|].
  split.
  - unfold Py.len. rewrite Hg, length_map, Hfirst. lia.
  - intros Hk. specialize (Hl Hk). split; [|split].
    + unfold Py.len. rewrite Hl, Hfirst. lia.
    + unfold Py.len. rewrite build_results_length, Hl, Hg, Hs, Hp.
      rewrite !length_map, Hfirst. lia.
    + intros k rec Hrec.
      apply build_results_nth_error in Hrec as (Hkg & _ & Hks & Hkp).
      rewrite Hg, nth_error_map in Hkg.
      rewrite Hs, nth_error_map in Hks.
      rewrite Hp, nth_error_map in Hkp.
      destruct (nth_error (firstn _ _) k) as [row|] eqn:Hrow;
        [|discriminate].
      cbn [option_map] in *.
      rewrite nth_error_firstn in Hrow.
      destruct (k <? _)%nat; [|discriminate].
      exists row. repeat split; congruence.
Qed.

Lemma run_results_in_dataset_order_witness :
  exists world,
    mapM (worker Sample.load_dataset Sample.processor Sample.infer_all
                 "en_zh" "test" 1 2 3) (Py.range_list 3)
    = Return world /\
    merged_gts world = ["Hallo"; "Welt"] /\
    Py.len (merged_gts world) = 2.
Proof.
  destruct (run_results_in_dataset_order string (list string)
              Sample.load_dataset Sample.processor Sample.infer_all
              "en_zh" "test" 1 2 3
              (AudioDatasetModified.mk Sample.rows
                 AudioDatasetModified.prompt_en_zh "covost_en_zh_dev" 2))
    as (world & Hw & Hg & _ & _ & Hn & _);
    [reflexivity|vm_compute; reflexivity|lia|lia|].
  exists world. split; [exact Hw|]. split; [exact Hg|exact Hn].
Defined.

(* ===================================================================== *)
(** ** More on the groups and their report *)
(* ===================================================================== *)

Lemma group_sizes_snoc (d : list (string * list ResultRec)) (s : string)
    (x : ResultRec) :
  list_sum (map (fun e => List.length (snd e)) (setdefault_append d s x))
  = S (list_sum (map (fun e => List.length (snd e)) d)).
Proof.
  induction d as [|[k v] d IH]; simpl.
  - reflexivity.
  - destruct (String.eqb k s); simpl.
    + rewrite length_app. simpl. lia.
    + rewrite IH. lia.
Qed.

(** The keys of the dictionary are the distinct sources in the order in
    which they first appear. *)
Lemma group_keys_first_appearance (results : list ResultRec) :
  map fst (group_by_source results)
  = rev (nodup string_dec (rev (map r_source results))).
Proof.
  induction results as [|x l IH] using rev_ind.
  - reflexivity.
  - rewrite group_by_source_snoc, map_app, rev_app_distr.
    cbn [map rev app nodup].
    destruct (group_by_source_inv l) as (_ & Hkeys & _).
    destruct (in_dec string_dec (r_source x) (rev (map r_source l)))
      as [Hin|Hout].
    + rewrite keys_setdefault_present; [exact IH|].
      apply Hkeys. now apply in_rev.
    + rewrite keys_setdefault_absent.
      * cbn [rev]. now rewrite IH.
      * intros H. apply Hout. apply -> in_rev. now apply Hkeys.
Qed.

Lemma group_sizes_total (results : list ResultRec) :
  list_sum (map (fun e => List.length (snd e)) (group_by_source results))
  = List.length results.
Proof.
  induction results as [|x l IH] using rev_ind.
  - reflexivity.
  - rewrite group_by_source_snoc, group_sizes_snoc, length_app, IH.
    simpl. lia.
Qed.

(** X10. Grouping by source splits the results without loss: the groups
    come in the order in which their tags first appear, no tag has two
    groups, every group holds exactly the items of its tag in their
    original order and is never empty, and the sizes of the groups add up
    to the number of results. *)
Theorem grouping_partitions_results (results : list ResultRec) :
  map fst (group_by_source results)
  = rev (nodup string_dec (rev (map r_source results))) /\
  NoDup (map fst (group_by_source results)) /\
  (forall k v, In (k, v) (group_by_source results) ->
               v = items_of k results /\ v <> []) /\
  list_sum (map (fun e => List.length (snd e)) (group_by_source results))
  = List.length results.
Proof.
  destruct (group_by_source_inv results) as (Hnd & Hkeys & Hvals).
  split; [apply group_keys_first_appearance|].
  split; [exact Hnd|]. split.
  - intros k v Hin. split; [now apply Hvals|].
    rewrite (Hvals k v Hin). intros Hnil.
    apply items_of_nil_iff in Hnil. apply Hnil, Hkeys.
    apply (in_map fst _ _ Hin).
  - apply group_sizes_total.
Qed.

Lemma grouping_partitions_results_witness :
  items_of "covost_en_zh_dev" Sample.two_groups
  = [mk_result "ni hao" "ni hao" "covost_en_zh_dev" "b0.wav";
     mk_result "xie xie" "xie xie" "covost_en_zh_dev" "b1.wav"] /\
  items_of "covost_en_zh_dev" Sample.two_groups <> [].
Proof.
  destruct (grouping_partitions_results Sample.two_groups)
    as (_ & _ & H & _).
  destruct (H "covost_en_zh_dev"
              [mk_result "ni hao" "ni hao" "covost_en_zh_dev" "b0.wav";
               mk_result "xie xie" "xie xie" "covost_en_zh_dev" "b1.wav"])
    as [Heq Hne].
  - vm_compute. right. now left.
  - split; [now rewrite <- Heq|now rewrite <- Heq].
Defined.

(** X11. The groups are scored in the order of the dictionary, and the
    scoring stops at the first tag without separator: the groups before it
    have their line printed, that group and the ones after it have none,
    and the loop ends with [IndexError]; when there is no such tag every
    group has its line and the loop returns. *)
Theorem report_stops_at_first_plain_tag (Score : Type)
    (corpus_bleu : list string -> list (list string) -> string -> Score)
    (results : list ResultRec) :
  exists d1 d2,
    group_by_source results = d1 ++ d2 /\
    Forall2 (line_of_entry corpus_bleu) d1 (report corpus_bleu results) /\
    (forall e, In e d1 -> (1 <= Py.count "_"%char (fst e))%nat) /\
    (d2 = [] ->
     snd (score_groups corpus_bleu (group_by_source results)
                       (mk_output [] [])) = Return tt) /\
    (forall e rest, d2 = e :: rest ->
       Py.count "_"%char (fst e) = 0%nat /\
       snd (score_groups corpus_bleu (group_by_source results)
                         (mk_output [] [])) = Raise IndexError).
Proof.
  assert (Hcount : forall s t, tokenize_of s = Return t ->
                     (1 <= Py.count "_"%char s)%nat).
  { intros s t Ht.
    destruct (Nat.eq_dec (Py.count "_"%char s) 0) as [H0|]; [|lia].
    rewrite (tokenize_of_no_separator s H0) in Ht. discriminate. }
  assert (Hraise : forall s e, tokenize_of s = Raise e ->
                     Py.count "_"%char s = 0%nat /\ e = IndexError).
  { intros s e He.
    destruct (Nat.eq_dec (Py.count "_"%char s) 0) as [H0|Hpos].
    - split; [exact H0|].
      rewrite (tokenize_of_no_separator s H0) in He. congruence.
    - destruct (last_two (Py.split "_"%char s)) as (pre & a & b & Hs).
      + rewrite split_length. lia.
      + rewrite (tokenize_of_segments _ _ _ _ Hs) in He. discriminate. }
  unfold report.
  destruct (score_groups_spec Score corpus_bleu
              (group_by_source results) (mk_output [] []))
    as (d1 & d2 & lines & Hd & Hfst & Hall & Hres).
  exists d1, d2. rewrite Hfst. cbn [stdout app].
  split; [exact Hd|]. split; [exact Hall|]. split; [|split].
  - intros e He.
    assert (Hex : exists l, line_of_entry corpus_bleu e l).
    { clear - Hall He. induction Hall as [|a l0 d ls HR Hall' IH].
      - contradiction.
      - destruct He as [<-|He]; [now exists l0|now apply IH]. }
    destruct Hex as [l [t [Ht _]]]. now apply (Hcount _ t).
  - intros ->. destruct Hres as [[_ H]|(e & rest & x & Habs & _)];
      [exact H|discriminate].
  - intros e rest ->.
    destruct Hres as [[Habs _]|(e' & rest' & x & [= <- <-] & He & Hsnd)];
      [discriminate|].
    destruct (Hraise _ _ He) as [H0 ->]. split; [exact H0|exact Hsnd].
Qed.

Lemma report_stops_at_first_plain_tag_witness :
  exists d1 d2,
    group_by_source
      [mk_result "g0" "h0" "covost_en_de_dev" "p0";
       mk_result "g1" "h1" "plain" "p1";
       mk_result "g2" "h2" "covost_en_zh_dev" "p2"] = d1 ++ d2 /\
    (forall e rest, d2 = e :: rest ->
       Py.count "_"%char (fst e) = 0%nat /\
       snd (score_groups Sample.corpus_bleu
              (group_by_source
                 [mk_result "g0" "h0" "covost_en_de_dev" "p0";
                  mk_result "g1" "h1" "plain" "p1";
                  mk_result "g2" "h2" "covost_en_zh_dev" "p2"])
              (mk_output [] [])) = Raise IndexError).
Proof.
  destruct (report_stops_at_first_plain_tag string Sample.corpus_bleu
              [mk_result "g0" "h0" "covost_en_de_dev" "p0";
               mk_result "g1" "h1" "plain" "p1";
               mk_result "g2" "h2" "covost_en_zh_dev" "p2"])
    as (d1 & d2 & Hd & _ & _ & _ & Hstop).
  exists d1, d2. split; [exact Hd|exact Hstop].
Defined.

(** X12. The tokenizer lookup raises exactly when the tag has no
    separator, and then it is [IndexError]; when it returns, the tokenizer
    is one of [ja-mecab], [zh] and [13a]; and it depends on the
    second-to-last segment only: two tags with the same second-to-last
    segment get the same tokenizer. *)
Theorem tokenize_of_raises_iff (source : string) :
  (tokenize_of source = Raise IndexError
   <-> Py.count "_"%char source = 0%nat) /\
  (forall e, tokenize_of source = Raise e -> e = IndexError) /\
  (forall t, tokenize_of source = Return t ->
             t = "ja-mecab" \/ t = "zh" \/ t = "13a") /\
  (forall source' pre pre' code last last',
     Py.split "_"%char source = pre ++ [code; last] ->
     Py.split "_"%char source' = pre' ++ [code; last'] ->
     tokenize_of source = tokenize_of source').
Proof.
  split; [|split; [|split]].
  - split.
    + intros He.
      destruct (Nat.eq_dec (Py.count "_"%char source) 0) as [H0|Hpos];
        [exact H0|].
      destruct (last_two (Py.split "_"%char source)) as (pre & a & b & Hs).
      * rewrite split_length. lia.
      * rewrite (tokenize_of_segments _ _ _ _ Hs) in He. discriminate.
    + apply tokenize_of_no_separator.
  - intros e He.
    destruct (tokenize_of_cases source) as [[c Hc]|Hc]; congruence.
  - intros t Ht.
    destruct (tokenize_of_cases source) as [[c Hc]|Hc]; [|congruence].
    rewrite Hc in Ht. injection Ht as <-. unfold policy_table.
    destruct (String.eqb c "ja"); [now left|].
    destruct (String.eqb c "zh"); [right; now left|right; now right].
  - intros source' pre pre' code last last' Hs Hs'.
    now rewrite (tokenize_of_segments _ _ _ _ Hs),
                (tokenize_of_segments _ _ _ _ Hs').
Qed.

Lemma tokenize_of_raises_iff_witness :
  tokenize_of "dev" = Raise IndexError /\
  tokenize_of "covost_en_zh_dev" = tokenize_of "wmt_zh_test".
Proof.
  split.
  - apply (tokenize_of_raises_iff "dev"). reflexivity.
  - apply (proj2 (proj2 (proj2 (tokenize_of_raises_iff "covost_en_zh_dev")))
             "wmt_zh_test" ["covost"; "en"] ["wmt"] "zh" "dev" "test");
      reflexivity.
Defined.

(* ===================================================================== *)
(** ** Reading the audio of a file item *)
(* ===================================================================== *)

Lemma startswith_app (p s : string) :
  startswith p s = true <-> exists rest, s = String.append p rest.
Proof.
  unfold startswith. revert s. induction p as [|a p IH]; intros s; simpl.
  - split; [intros _; now exists s|intros _; now destruct s].
  - destruct s as [|b s]; simpl.
    + split; [discriminate|intros [rest H]; discriminate].
    + destruct (ascii_dec a b) as [->|Hne].
      * rewrite IH. split; intros [rest H]; exists rest; congruence.
      * split; [discriminate|]. intros [rest H]. congruence.
Qed.

Lemma count_append (c : ascii) (s1 s2 : string) :
  Py.count c (String.append s1 s2) = (Py.count c s1 + Py.count c s2)%nat.
Proof.
  induction s1 as [|a s1 IH]; simpl; [reflexivity|].
  destruct (Ascii.eqb a c); simpl; now rewrite IH.
Qed.

(** X13. [read_audio] goes to the network exactly for the paths that
    begin with [http://] or [https://] and opens every other path as a
    file: in particular any path without a colon, and any path that does not
    begin with the letter h, is read from the file system, also when its
    name begins with [http]. *)
Theorem read_audio_protocol (Bytes : Type)
    (requests_get open_read : string -> result Bytes) (audio_path : string) :
  (forall rest, audio_path = String.append "http://" rest ->
     read_audio requests_get open_read audio_path = requests_get audio_path)
  /\
  (forall rest, audio_path = String.append "https://" rest ->
     read_audio requests_get open_read audio_path = requests_get audio_path)
  /\
  ((forall rest, audio_path <> String.append "http://" rest) ->
   (forall rest, audio_path <> String.append "https://" rest) ->
   read_audio requests_get open_read audio_path = open_read audio_path) /\
  (Py.count ":"%char audio_path = 0%nat ->
   read_audio requests_get open_read audio_path = open_read audio_path) /\
  (forall c rest, audio_path = String c rest -> c <> "h"%char ->
   read_audio requests_get open_read audio_path = open_read audio_path).
Proof.
  unfold read_audio.
  assert (Hlocal : (forall rest, audio_path <> String.append "http://" rest) ->
                   (forall rest, audio_path <> String.append "https://" rest) ->
                   startswith "http://" audio_path
                   || startswith "https://" audio_path = false).
  { intros H1 H2. apply orb_false_iff. split.
    - destruct (startswith "http://" audio_path) eqn:Hp; [|reflexivity].
      apply startswith_app in Hp as [rest Hr]. now destruct (H1 rest).
    - destruct (startswith "https://" audio_path) eqn:Hp; [|reflexivity].
      apply startswith_app in Hp as [rest Hr]. now destruct (H2 rest). }
  split; [|split; [|split; [|split]]].
  - intros rest Hr.
    assert (startswith "http://" audio_path = true) as ->
      by (apply startswith_app; now exists rest).
    reflexivity.
  - intros rest Hr.
    assert (startswith "https://" audio_path = true) as ->
      by (apply startswith_app; now exists rest).
    now rewrite orb_true_r.
  - intros H1 H2. now rewrite Hlocal.
  - intros Hc. rewrite Hlocal; [reflexivity| |];
      intros rest ->; rewrite count_append in Hc; simpl in Hc; lia.
  - intros c rest -> Hc. rewrite Hlocal; [reflexivity| |];
      intros rest' [= -> _]; now apply Hc.
Qed.

Lemma read_audio_protocol_witness :
  read_audio (fun _ => Raise ValueError) (fun p => Return p)
             "http_huggingface_co.png"
  = Return "http_huggingface_co.png" /\
  read_audio (fun u => Return u) (fun _ => Raise ValueError)
             "https://host/a.wav"
  = Return "https://host/a.wav".
Proof.
  split.
  - apply (read_audio_protocol string (fun _ => Raise ValueError)
             (fun p => Return p) "http_huggingface_co.png").
    reflexivity.
  - apply (proj1 (proj2 (read_audio_protocol string (fun u => Return u)
                           (fun _ => Raise ValueError)
                           "https://host/a.wav")) "host/a.wav").
    reflexivity.
Defined.

Lemma mapM_first_failure {A B : Type} (f : A -> result B)
    (l1 : list A) (a : A) (l2 : list A) (e : exn) :
  (forall x, In x l1 -> exists b, f x = Return b) ->
  f a = Raise e ->
  mapM f (l1 ++ a :: l2) = Raise e.
Proof.
  induction l1 as [|x l1 IH]; intros Hok Ha; simpl.
  - now rewrite Ha.
  - destruct (Hok x (or_introl eq_refl)) as [b ->]. cbn [bind].
    rewrite IH; [reflexivity| |exact Ha].
    intros y Hy. apply Hok. now right.
Qed.

(** X14. [collate_fn] has no skip: when the audios of the items before
    some item are read and decoded and the reading or the decoding of that
    item raises, [collate_fn] raises the same exception and yields no batch;
    when every audio is read and decoded, the batch carries one audio path,
    one source and one ground truth per item, in the order of the items, and
    the processor is given as many audios as prompts. *)
Theorem collate_fn_fails_with_first_bad_audio (Bytes Audio Inputs : Type)
    (requests_get open_read : string -> result Bytes)
    (ffmpeg_read : Bytes -> Z -> result Audio)
    (processor : list string -> list Audio -> Inputs)
    (sampling_rate : Z) :
  let decode item :=
    bind (read_audio requests_get open_read (file_audio item))
         (fun bytes => ffmpeg_read bytes sampling_rate) in
  (forall before item after e,
     (forall x, In x before -> raises (decode x) = false) ->
     decode item = Raise e ->
     collate_fn requests_get open_read ffmpeg_read processor sampling_rate
                (before ++ item :: after)
     = Raise e) /\
  (forall inputs,
     (forall x, In x inputs -> raises (decode x) = false) ->
     exists audios,
       List.length audios = List.length inputs /\
       collate_fn requests_get open_read ffmpeg_read processor sampling_rate
                  inputs
       = Return (mk_batch (processor (map file_prompt inputs) audios)
                          (map file_audio inputs) (map file_source inputs)
                          (map file_gt inputs))).
Proof.
  cbv zeta.
  assert (Hok : forall l,
            (forall x, In x l ->
               raises (bind (read_audio requests_get open_read (file_audio x))
                            (fun bytes => ffmpeg_read bytes sampling_rate))
               = false) ->
            forall x, In x l ->
              exists a,
                bind (read_audio requests_get open_read (file_audio x))
                     (fun bytes => ffmpeg_read bytes sampling_rate)
                = Return a).
  { intros l Hl x Hx. specialize (Hl x Hx).
    destruct (bind _ _) as [a|]; [now exists a|discriminate]. }
  split.
  - intros before item after e Hbefore Hitem. unfold collate_fn.
    rewrite (mapM_first_failure _ before item after e);
      [reflexivity|now apply Hok|exact Hitem].
  - intros inputs Hall. unfold collate_fn.
    destruct (mapM_total _ inputs (Hok inputs Hall)) as [audios [Hret Hf2]].
    exists audios. split.
    + symmetry. clear - Hf2. induction Hf2; simpl; congruence.
    + now rewrite Hret.
Qed.

Lemma collate_fn_fails_with_first_bad_audio_witness :
  collate_fn (fun u => Raise ValueError) (fun p => Return p)
             (fun (bytes : string) (_ : Z) => Return bytes)
             (fun (texts audios : list string) => audios) 16000
             ([mk_file_item "a.wav" "p" "s" "g"]
              ++ mk_file_item "http://host/b.wav" "p" "s" "g"
              :: [mk_file_item "c.wav" "p" "s" "g"])
  = Raise ValueError.
Proof.
  apply (proj1 (collate_fn_fails_with_first_bad_audio string string
                  (list string) (fun u => Raise ValueError)
                  (fun p => Return p) (fun bytes _ => Return bytes)
                  (fun texts audios => audios) 16000)).
  - intros x [<-|[]]. reflexivity.
  - reflexivity.
Defined.
